(** * Custom_Chatbot.ipynb: retrieval-augmented question answering

    A shallow embedding of the notebook's functions:
    - [load_dataset]: corpus cleaning with a running date prefix;
    - [get_relevant_rows]: cosine ranking of passages against a question;
    - [create_prompt]: greedy packing of passages into a token budget;
    - [get_openai_answer], [answer_question_with_context] and the
      interactive loop.

    Numbers are the real numbers (exact arithmetic stands for Python's
    floats), Python [str] values are byte strings (UTF-8), data frames live
    in a heap indexed by references, and the functions that call a provider,
    print or raise are written in a state-and-exception monad. *)

From Stdlib Require Import Reals Lra Lia ZArith List String Ascii.
From Stdlib Require Import Sorting.Permutation Sorting.Sorted.
From stdpp Require Import strings pretty gmap.
Import ListNotations.
Open Scope string_scope.
Open Scope list_scope.
Open Scope Z_scope.

(** ** Python strings *)

Definition nl : string := String "010"%char EmptyString.
Definition dquote : string := String "034"%char EmptyString.

(** [needle in hay] *)
Fixpoint contains (needle hay : string) : bool :=
  String.prefix needle hay
  || match hay with
     | EmptyString => false
     | String _ hay' => contains needle hay'
     end.

(** [s.startswith(p)] *)
Definition startswith (p s : string) : bool := String.prefix p s.

(** [s.split(c)] for a one-character separator: never the empty list. *)
Fixpoint split (c : ascii) (s : string) : list string :=
  match s with
  | EmptyString => [EmptyString]
  | String a s' =>
      if Ascii.eqb a c then EmptyString :: split c s'
      else match split c s' with
           | [] => [String a EmptyString]
           | l :: ls => String a l :: ls
           end
  end.

(** [sep.join(l)] *)
Fixpoint join (sep : string) (l : list string) : string :=
  match l with
  | [] => EmptyString
  | [x] => x
  | x :: rest => x +:+ sep +:+ join sep rest
  end.

(** [s.lower()] on the ASCII letters; the other bytes are kept. The
    program only compares the result with ["exit"], and a string with a
    character outside ASCII does not lower to it. *)
Definition lower_ascii (a : ascii) : ascii :=
  let n := nat_of_ascii a in
  if (Nat.leb 65 n && Nat.leb n 90)%bool then ascii_of_nat (n + 32) else a.

Fixpoint lower (s : string) : string :=
  match s with
  | EmptyString => EmptyString
  | String a s' => String (lower_ascii a) (lower s')
  end.

(** ** Corpus loader *)

(** The separator between a date and its event: space, en dash, space. *)
Definition date_sep : string := " – ".

(** [(df["text"].str.len() > 0) & (~df["text"].str.startswith("=="))] *)
Definition keep_line (t : string) : bool :=
  (Nat.ltb 0 (String.length t) && negb (startswith "==" t))%bool.

Section Loader.
(** [dateutil.parser.parse]: [true] when it returns, [false] when it
    raises. *)
Variable parse : string -> bool.

(** One iteration of [for (i, row) in df.iterrows()]. The frame has the
    single column [text], so [row] is a view of the frame's storage:
    [row["text"] = ...] writes row [i] of [df]. *)
Definition prefix_step (st : string * list string) (i : nat)
  : string * list string :=
  let '(prefix, df) := st in
  match df !! i with
  | None => st
  | Some text =>
      if contains date_sep text then st
      else if parse text then (text, df)
      else (prefix, <[i := prefix +:+ date_sep +:+ text]> df)
  end.

Definition prefix_dates (df : list string) : list string :=
  snd (fold_left prefix_step (seq 0 (length df)) (EmptyString, df)).

(** [load_dataset], from the page extract that the request returned. *)
Definition load_dataset (extract : string) : list string :=
  let df := split "010" extract in
  let df := List.filter keep_line df in
  let df := prefix_dates df in
  List.filter (contains date_sep) df.

(** The same scan as a fold that carries the current prefix and emits the
    passages. *)
Fixpoint dated (prefix : string) (lines : list string) : list string :=
  match lines with
  | [] => []
  | t :: rest =>
      if contains date_sep t then t :: dated prefix rest
      else if parse t then dated t rest
      else (prefix +:+ date_sep +:+ t) :: dated prefix rest
  end.

(** The rows after the loop, before the last filter. *)
Fixpoint prefixed (prefix : string) (lines : list string) : list string :=
  match lines with
  | [] => []
  | t :: rest =>
      if contains date_sep t then t :: prefixed prefix rest
      else if parse t then t :: prefixed t rest
      else (prefix +:+ date_sep +:+ t) :: prefixed prefix rest
  end.

(** A line that sets the prefix: no separator, and it parses as a date. *)
Definition is_date_line (t : string) : bool :=
  (negb (contains date_sep t) && parse t)%bool.

(** The prefix in force after the lines [before], from [prefix]. *)
Definition prefix_after (prefix : string) (before : list string) : string :=
  fold_left (fun prefix t => if is_date_line t then t else prefix)
    before prefix.

(** What a passage is: a line that has the separator, as it is, or a
    line that has none and is no date, behind the prefix in force. *)
Definition passage_of (prefix : string) (before : list string)
    (l p : string) : Prop :=
  (contains date_sep l = true /\ p = l) \/
  (contains date_sep l = false /\ parse l = false /\
   p = prefix_after prefix before +:+ date_sep +:+ l).

(** The lines of the extract that the first filter keeps. *)
Definition kept_lines (extract : string) : list string :=
  List.filter keep_line (split "010" extract).

(** [p] is the line [l] behind a date line [d] that precedes it. *)
Definition date_prefixed (lines : list string) (p : string) : Prop :=
  exists before l after d,
    lines = before ++ l :: after /\ In d before /\ parse d = true /\
    p = d +:+ date_sep +:+ l.

(** Every passage is a line that has the separator or a line behind a
    preceding date: a line with no date before it is not returned. *)
Definition all_dated (extract : string) : Prop :=
  forall p, In p (load_dataset extract) ->
    (In p (kept_lines extract) /\ contains date_sep p = true)
    \/ date_prefixed (kept_lines extract) p.
End Loader.

(** A date recogniser for the examples: one date only. *)
Definition is_january_1 (s : string) : bool := String.eqb s "January 1".

Definition corpus_example : string :=
  "2024 was a leap year." +:+ nl +:+ "== Events ==" +:+ nl +:+ "January 1"
  +:+ nl +:+ nl +:+ "New year" +:+ nl +:+ "March 3 – Spring".

(** ** Cosine distance *)

Definition Vector := list R.

Fixpoint dot (u v : Vector) : R :=
  match u, v with
  | x :: u', y :: v' => (x * y + dot u' v')%R
  | _, _ => 0%R
  end.

Definition norm (u : Vector) : R := sqrt (dot u u).

Definition negate (u : Vector) : Vector := map Ropp u.

(** A distance as the metric computes it: a number, or no number where the
    quotient is 0/0 (numpy's [nan]). *)
Inductive dist : Type :=
| Num (d : R)
| NaN.

(** [1 - (u . v) / (|u| * |v|)]; nothing special is done for a zero
    vector. *)
Definition cosine_distance (u v : Vector) : dist :=
  if Req_dec_T (norm u * norm v) 0 then NaN
  else Num (1 - dot u v / (norm u * norm v)).

(** A vector with a component that is not zero. *)
Definition nonzero (v : Vector) : Prop := Exists (fun x => x <> 0%R) v.

(** The zero vector of some dimension. *)
Definition all_zero (v : Vector) : Prop := Forall (fun x => x = 0%R) v.

Inductive Exn : Type :=
| ProviderError   (* the remote call failed *)
| KeyError
| ValueError
| EOFError.

Inductive Result (A : Type) : Type :=
| Ok (a : A)
| Raise (e : Exn).
Arguments Ok {A} a.
Arguments Raise {A} e.

(** The metric on two sequences: vectors of different length are refused. *)
Definition cosine (u v : Vector) : Result dist :=
  if Nat.eqb (length u) (length v) then Ok (cosine_distance u v)
  else Raise ValueError.

(** [distances_from_embeddings(q, embeddings, distance_metric="cosine")]:
    the metric on every embedding in turn. *)
Fixpoint distances_from_embeddings (q : Vector) (embeddings : list Vector)
  : Result (list dist) :=
  match embeddings with
  | [] => Ok []
  | e :: rest =>
      match cosine q e with
      | Raise x => Raise x
      | Ok d =>
          match distances_from_embeddings q rest with
          | Raise x => Raise x
          | Ok ds => Ok (d :: ds)
          end
      end
  end.

(** ** Data frames *)

Record Row : Type := { text : string; embeddings : Vector }.

(** A frame with the columns [text] and [embeddings], and possibly the
    column [distance]. *)
Inductive DataFrame : Type :=
| Frame (rows : list Row)
| Scored (rows : list (Row * dist)).

Definition frame_rows (df : DataFrame) : list Row :=
  match df with
  | Frame rows => rows
  | Scored rows => map fst rows
  end.

(** [df["text"].values] *)
Definition texts (df : DataFrame) : list string := map text (frame_rows df).

(** [l[:n]] for any integer [n]: a negative [n] counts from the end. *)
Definition slice_to {A : Type} (n : Z) (l : list A) : list A :=
  if 0 <=? n then firstn (Z.to_nat n) l
  else firstn (length l - Z.to_nat (- n)) l.

(** [df.head(n)] *)
Definition head (n : Z) (df : DataFrame) : DataFrame :=
  match df with
  | Frame rows => Frame (slice_to n rows)
  | Scored rows => Scored (slice_to n rows)
  end.

(** The order of the column [distance]: numbers ascending, [nan] last. *)
Definition dist_leb (a b : dist) : bool :=
  match a, b with
  | Num x, Num y => if Rle_dec x y then true else false
  | _, NaN => true
  | NaN, Num _ => false
  end.

Definition dist_le (a b : dist) : Prop :=
  match a, b with
  | Num x, Num y => (x <= y)%R
  | _, NaN => True
  | NaN, Num _ => False
  end.

Definition dist_eqb (a b : dist) : bool :=
  match a, b with
  | Num x, Num y => if Req_dec_T x y then true else false
  | NaN, NaN => true
  | _, _ => false
  end.

(** Ascending sort on [distance] that keeps rows of equal distance in
    their order: each row goes in front of the sorted later rows that are
    not smaller. *)
Fixpoint insert_row (x : Row * dist) (l : list (Row * dist))
  : list (Row * dist) :=
  match l with
  | [] => [x]
  | y :: l' =>
      if dist_leb (snd x) (snd y) then x :: l else y :: insert_row x l'
  end.

Definition sort_by_distance (l : list (Row * dist)) : list (Row * dist) :=
  fold_right insert_row [] l.

(** [df.nsmallest(n, 'distance')], [keep='first']. No row for [n <= 0].
    With fewer than [n] rows, or just [n], pandas returns
    [sort_values().head(n)]: [sort_values] is the sort of the column with
    the default [quicksort], which is ascending and puts rows of equal
    value in an order of its own. With more than [n] rows it selects the
    [n] smallest and orders them with a merge sort, earlier rows first
    among equal values. *)
Definition nsmallest
    (sort_values : list (Row * dist) -> list (Row * dist))
    (n : Z) (rows : list (Row * dist)) : list (Row * dist) :=
  if n <=? 0 then []
  else if Z.of_nat (length rows) <=? n
       then firstn (Z.to_nat n) (sort_values rows)
       else firstn (Z.to_nat n) (sort_by_distance rows).

(** An ascending sort that puts the rows of equal distance in reverse
    order: one of the orders that [quicksort] may give. *)
Definition sort_values_reversing (rows : list (Row * dist))
  : list (Row * dist) :=
  sort_by_distance (rev rows).

(** The rows with their distance to [q], in corpus order. *)
Definition scored (q : Vector) (rows : list Row) : list (Row * dist) :=
  map (fun r => (r, cosine_distance q (embeddings r))) rows.

(** Order of two scored rows, and the rows at distance [d]. *)
Definition row_le (a b : Row * dist) : Prop := dist_le (snd a) (snd b).

Definition at_distance (d : dist) (a : Row * dist) : bool := dist_eqb (snd a) d.

(** What [sort_values] is known to do: it returns the rows it gets, in
    ascending order of distance, a distance that is no number last. *)
Definition ascending_sort
    (sort_values : list (Row * dist) -> list (Row * dist)) : Prop :=
  forall rows,
    Permutation (sort_values rows) rows /\
    StronglySorted row_le (sort_values rows).



(** ** Heap, output and exceptions *)

Definition loc := nat.

(** What the program writes to standard output. The two warnings and the
    error line also print the response or the exception, which is not
    modelled. *)
Inductive Event : Type :=
| Prompted (s : string)          (* the prompt of [input(s)] *)
| Printed (s : string)           (* [print(s)] *)
| WarnNoData                     (* "Warning: 'data' key not found or empty ..." *)
| WarnNoChoices                  (* "Warning: 'choices' key not found or empty ..." *)
| PrintedError (e : Exn).        (* [print(f"Error: {str(e)}")] *)

Record State : Type := { heap : gmap loc DataFrame; stdout : list Event }.

(** A computation reads and writes the state and returns or raises. *)
Definition M (A : Type) : Type := State -> Result A * State.

#[global] Instance M_ret : MRet M := fun A a σ => (Ok a, σ).

#[global] Instance M_bind : MBind M := fun A B f m σ =>
  match m σ with
  | (Ok a, σ') => f a σ'
  | (Raise e, σ') => (Raise e, σ')
  end.

Definition raise {A : Type} (e : Exn) : M A := fun σ => (Raise e, σ).

Definition lift {A : Type} (r : Result A) : M A := fun σ => (r, σ).

(** [try: body / except Exception as e: handler e] *)
Definition try_except {A : Type} (body : M A) (handler : Exn -> M A) : M A :=
  fun σ =>
    match body σ with
    | (Ok a, σ') => (Ok a, σ')
    | (Raise e, σ') => handler e σ'
    end.

Definition print (ev : Event) : M unit :=
  fun σ => (Ok tt, {| heap := heap σ; stdout := stdout σ ++ [ev] |}).

(** A new frame object. *)
Definition alloc (df : DataFrame) : M loc :=
  fun σ =>
    let l := fresh (dom (heap σ)) in
    (Ok l, {| heap := <[l := df]> (heap σ); stdout := stdout σ |}).

Definition deref (l : loc) : M DataFrame :=
  fun σ =>
    match heap σ !! l with
    | Some df => (Ok df, σ)
    | None => (Raise KeyError, σ)
    end.

(** In-place update of the frame object at [l]. *)
Definition assign (l : loc) (df : DataFrame) : M unit :=
  fun σ => (Ok tt, {| heap := <[l := df]> (heap σ); stdout := stdout σ |}).

(** [df.copy()] *)
Definition copy (l : loc) : M loc := df ← deref l; alloc df.

(** [df.head(n)] as a new frame. *)
Definition df_head (l : loc) (n : Z) : M loc := df ← deref l; alloc (head n df).

(** [df['distance'] = distances]: the column is added to, or replaced in,
    the frame object itself; a column of another length is refused. *)
Definition set_distance (l : loc) (distances : list dist) : M unit :=
  df ← deref l;
  let rows := frame_rows df in
  if Nat.eqb (length rows) (length distances)
  then assign l (Scored (combine rows distances))
  else raise ValueError.

(** [df.nsmallest(n, 'distance')] as a new frame. *)
Definition df_nsmallest
    (sort_values : list (Row * dist) -> list (Row * dist))
    (l : loc) (n : Z) : M loc :=
  df ← deref l;
  match df with
  | Scored rows => alloc (Scored (nsmallest sort_values n rows))
  | Frame _ => raise KeyError
  end.

(** ** Provider responses *)

(** The response of [openai.Embedding.create]: the key ['data'] may be
    missing; each of its items may lack the key ['embedding']. *)
Record EmbeddingResponse : Type := { data : option (list (option Vector)) }.

(** The response of [openai.Completion.create]: the key ['choices'] may be
    missing; each of its items may lack the key ['text']. *)
Record CompletionResponse : Type := { choices : option (list (option string)) }.

(** ['data' in r and len(r['data']) > 0] *)
Definition has_data (r : EmbeddingResponse) : bool :=
  match data r with
  | Some (_ :: _) => true
  | _ => false
  end.

(** [r['data'][0]['embedding']] *)
Definition first_embedding (r : EmbeddingResponse) : Result Vector :=
  match data r with
  | Some (Some e :: _) => Ok e
  | _ => Raise KeyError
  end.

(** ['choices' in r and len(r['choices']) > 0] *)
Definition has_choices (r : CompletionResponse) : bool :=
  match choices r with
  | Some (_ :: _) => true
  | _ => false
  end.

(** [r["choices"][0]["text"]] *)
Definition first_text (r : CompletionResponse) : Result string :=
  match choices r with
  | Some (Some t :: _) => Ok t
  | _ => Raise KeyError
  end.

(** The white space of [str.isspace], in UTF-8. One byte: U+0009 to
    U+000D, U+001C to U+001F and U+0020. *)
Definition is_space (a : ascii) : bool :=
  let n := nat_of_ascii a in
  (Nat.eqb n 32 || (Nat.leb 9 n && Nat.leb n 13)
   || (Nat.leb 28 n && Nat.leb n 31))%bool.

(** Two bytes: U+0085 and U+00A0. *)
Definition is_space2 (a b : ascii) : bool :=
  let x := nat_of_ascii a in
  let y := nat_of_ascii b in
  (Nat.eqb x 194 && (Nat.eqb y 133 || Nat.eqb y 160))%bool.

(** Three bytes: U+1680, U+2000 to U+200A, U+2028, U+2029, U+202F, U+205F
    and U+3000. *)
Definition is_space3 (a b c : ascii) : bool :=
  let x := nat_of_ascii a in
  let y := nat_of_ascii b in
  let z := nat_of_ascii c in
  ((Nat.eqb x 225 && Nat.eqb y 154 && Nat.eqb z 128)
   || (Nat.eqb x 226 && Nat.eqb y 128
       && ((Nat.leb 128 z && Nat.leb z 138)
           || Nat.eqb z 168 || Nat.eqb z 169 || Nat.eqb z 175))
   || (Nat.eqb x 226 && Nat.eqb y 129 && Nat.eqb z 159)
   || (Nat.eqb x 227 && Nat.eqb y 128 && Nat.eqb z 128))%bool.

(** The string without the white space characters at its front, the
    characters being recognised by [w2] and [w3]. *)
Fixpoint strip_front (w2 : ascii -> ascii -> bool)
    (w3 : ascii -> ascii -> ascii -> bool) (s : string) : string :=
  match s with
  | EmptyString => EmptyString
  | String a s1 =>
      if is_space a then strip_front w2 w3 s1
      else
        match s1 with
        | EmptyString => s
        | String b s2 =>
            if w2 a b then strip_front w2 w3 s2
            else
              match s2 with
              | EmptyString => s
              | String c s3 => if w3 a b c then strip_front w2 w3 s3 else s
              end
        end
  end.

Definition reverse (s : string) : string :=
  string_of_list_ascii (rev (list_ascii_of_string s)).

(** [s.lstrip()] *)
Definition lstrip (s : string) : string := strip_front is_space2 is_space3 s.

(** [s.rstrip()]: the same from the end, on the bytes in reverse. *)
Definition rstrip (s : string) : string :=
  reverse (strip_front (fun b a => is_space2 a b)
             (fun c b a => is_space3 a b c) (reverse s)).

(** [s.strip()] *)
Definition strip (s : string) : string := rstrip (lstrip s).

(** A byte that continues a character of more than one byte. *)
Definition is_continuation (a : ascii) : bool :=
  let n := nat_of_ascii a in
  (Nat.leb 128 n && Nat.ltb n 192)%bool.

(** The characters of a string: every byte that starts a character with
    the continuation bytes behind it. *)
Fixpoint chars (s : string) : list string :=
  match s with
  | EmptyString => []
  | String a s' =>
      match chars s' with
      | String b ch :: rest =>
          if is_continuation b then String a (String b ch) :: rest
          else String a EmptyString :: String b ch :: rest
      | rest => String a EmptyString :: rest
      end
  end.

(** [len(s)] *)
Definition char_length (s : string) : nat := length (chars s).

Definition concat_strings (l : list string) : string :=
  fold_right String.append EmptyString l.

(** ** Prompt composer *)

(** The template is [template_head {} template_mid {} template_tail]. *)
Definition template_head : string :=
  nl +:+ "    Answer the question based on the context below. If the question can't be answered based on the context, say "
  +:+ dquote +:+ "I don't know." +:+ dquote +:+ nl +:+ nl +:+ "    Context: ".

Definition template_mid : string :=
  nl +:+ nl +:+ "    ---" +:+ nl +:+ nl +:+ "    Question: ".

Definition template_tail : string :=
  nl +:+ nl +:+ "    Answer:" +:+ nl +:+ "    ".

Definition prompt_template : string :=
  template_head +:+ "{}" +:+ template_mid +:+ "{}" +:+ template_tail.

(** [prompt_template.format(context, question)] *)
Definition format_prompt (context question : string) : string :=
  template_head +:+ context +:+ template_mid +:+ question +:+ template_tail.

(** The separator of the context block. *)
Definition context_sep : string := nl +:+ nl +:+ "###" +:+ nl +:+ nl.

(** The special tokens of the encoding [cl100k_base]. *)
Definition special_tokens : list string :=
  ["<|endoftext|>"; "<|fim_prefix|>"; "<|fim_middle|>"; "<|fim_suffix|>";
   "<|endofprompt|>"].

(** A text that [tokenizer.encode] refuses: it spells a special token. *)
Definition disallowed (s : string) : bool :=
  existsb (fun token => contains token s) special_tokens.

#[global] Instance Result_ret : MRet Result := fun A a => Ok a.

#[global] Instance Result_bind : MBind Result := fun A B f r =>
  match r with
  | Ok a => f a
  | Raise e => Raise e
  end.

Section Prompt.
(** The tokens of a text that spells no special token: the byte pair
    encoding of [cl100k_base]. *)
Variable encode : string -> list nat.

(** [tokenizer.encode(s)], with no special token allowed. *)
Definition tokenizer_encode (s : string) : Result (list nat) :=
  if disallowed s then Raise ValueError else Ok (encode s).

(** [len(tokenizer.encode(s))] *)
Definition encoded_length (s : string) : Result Z :=
  tokens ← tokenizer_encode s; mret (Z.of_nat (length tokens)).

(** The number of tokens of a text that the tokenizer takes. *)
Definition token_count (s : string) : Z := Z.of_nat (length (encode s)).

(** The loop over [df["text"].values]: the texts appended to [context],
    from the running total [current_token_count]; the first text that
    does not fit ends the loop. *)
Fixpoint pack_context (current_token_count max_token_count : Z)
    (values : list string) : Result (list string) :=
  match values with
  | [] => mret []
  | text :: rest =>
      tokens_in_text ← encoded_length text;
      if current_token_count + tokens_in_text <=? max_token_count
      then
        context ← pack_context (current_token_count + tokens_in_text)
                    max_token_count rest;
        mret (text :: context)
      else mret []
  end.

(** The total before the loop, where the tokenizer takes the template and
    the question. *)
Definition base_token_count (question : string) : Z :=
  token_count prompt_template + token_count question.

(** The tokens of a list of texts, each encoded on its own. *)
Definition total_tokens (l : list string) : Z :=
  fold_right (fun text acc => token_count text + acc) 0 l.

(** The list [context] at the end of the loop. *)
Definition context_of (question : string) (df : DataFrame)
    (max_token_count : Z) : Result (list string) :=
  template_tokens ← encoded_length prompt_template;
  question_tokens ← encoded_length question;
  pack_context (template_tokens + question_tokens) max_token_count (texts df).

Definition create_prompt (question : string) (df : DataFrame)
    (max_token_count : Z) : Result string :=
  context ← context_of question df max_token_count;
  mret (format_prompt (join context_sep context) question).
End Prompt.

(** A tokenizer for the examples: one token for each byte. *)
Definition byte_encode (s : string) : list nat :=
  map nat_of_ascii (list_ascii_of_string s).

(** ** Ranker, completion and the interactive loop *)

Section Pipeline.
Variable encode : string -> list nat.
(** [Series.sort_values()] on the column [distance]. *)
Variable sort_values : list (Row * dist) -> list (Row * dist).
(** [openai.Embedding.create(model=..., input=question)]: returns a
    response or raises. *)
Variable Embedding_create : string -> Result EmbeddingResponse.
(** [openai.Completion.create(model=..., prompt=..., max_tokens=...)] *)
Variable Completion_create : string -> Z -> Result CompletionResponse.

Definition get_relevant_rows (question : string) (df : loc) (top_n : Z)
  : M loc :=
  question_embedding ← lift (Embedding_create question);
  if has_data question_embedding then
    question_embedding ← lift (first_embedding question_embedding);
    df_copy ← copy df;
    values ← (d ← deref df_copy; mret (map embeddings (frame_rows d)));
    distances ← lift (distances_from_embeddings question_embedding values);
    set_distance df_copy distances;;
    df_nsmallest sort_values df_copy top_n
  else
    print WarnNoData;;
    df_head df top_n.

Definition get_openai_answer (prompt : string) (max_answer_tokens : Z)
  : M string :=
  try_except
    (response ← lift (Completion_create prompt max_answer_tokens);
     if has_choices response then
       t ← lift (first_text response);
       mret (strip t)
     else
       print WarnNoChoices;;
       mret "No answer found in response.")
    (fun e => print (PrintedError e);; mret "An error occurred.").

Definition answer_question_with_context (question : string) (df : loc)
    (max_prompt_tokens max_answer_tokens top_n : Z) : M string :=
  relevant_rows ← get_relevant_rows question df top_n;
  rows ← deref relevant_rows;
  prompt ← lift (create_prompt encode question rows max_prompt_tokens);
  get_openai_answer prompt max_answer_tokens.

(** The [while True] loop over the lines that [input] returns; [input]
    raises at the end of the input. *)
Fixpoint interactive_loop (inputs : list string) (data : loc) : M unit :=
  match inputs with
  | [] =>
      print (Prompted "Ask a question (or type 'exit' to quit): ");;
      raise EOFError
  | user_input :: rest =>
      print (Prompted "Ask a question (or type 'exit' to quit): ");;
      if String.eqb (lower user_input) "exit" then mret tt
      else
        print (Printed ("You asked: " +:+ user_input));;
        answer ← answer_question_with_context user_input data 1500 150 10;
        print (Printed answer);;
        interactive_loop rest data
  end.
End Pipeline.

(** ** Embedding generation and the basic answer *)

(** The exceptions of [generate_embeddings] and [answer_basic_question]:
    those of [Exn], and [IndexError] for the first item of an empty list. *)
Inductive PyExn : Type :=
| Builtin (e : Exn)
| IndexError.

(** A computation that prints, and returns or raises. *)
Definition Out (A : Type) : Type := (PyExn + A) * list Event.

#[global] Instance Out_ret : MRet Out := fun A a => (inr a, []).

#[global] Instance Out_bind : MBind Out := fun A B f m =>
  match m with
  | (inl e, w) => (inl e, w)
  | (inr a, w) => let '(r, w') := f a in (r, w ++ w')
  end.

Definition throw {A : Type} (e : PyExn) : Out A := (inl e, []).

Definition say (ev : Event) : Out unit := (inr tt, [ev]).

Definition from_result {A : Type} (r : Result A) : Out A :=
  match r with
  | Ok a => (inr a, [])
  | Raise e => (inl (Builtin e), [])
  end.

(** [try: body / except Exception as e: handler e] *)
Definition catch {A : Type} (body : Out A) (handler : PyExn -> Out A) : Out A :=
  match body with
  | (inl e, w) => let '(r, w') := handler e in (r, w ++ w')
  | (inr a, w) => (inr a, w)
  end.

(** [response['data'][0]['embedding']] where ['data'] is there. *)
Definition item_embedding (items : list (option Vector)) : Out Vector :=
  match items with
  | [] => throw IndexError
  | None :: _ => throw (Builtin KeyError)
  | Some e :: _ => mret e
  end.

(** [response["choices"][0]["text"]] *)
Definition choice_text (r : CompletionResponse) : Out string :=
  match choices r with
  | None => throw (Builtin KeyError)
  | Some [] => throw IndexError
  | Some (None :: _) => throw (Builtin KeyError)
  | Some (Some t :: _) => mret t
  end.

Section Embeddings.
(** [openai.Embedding.create(input=[text], model=...)] *)
Variable Embedding_create : string -> Result EmbeddingResponse.
(** [openai.Completion.create(model=..., prompt=..., max_tokens=...)] *)
Variable Completion_create : string -> Z -> Result CompletionResponse.
(** [str(e)] *)
Variable str : PyExn -> string.

(** The value [None] of Python is [None]; ['data'], where it is there, is
    a list. *)
Definition get_embedding_for_text (text : string) : Out (option Vector) :=
  response ← from_result (Embedding_create text);
  match data response with
  | Some items => e ← item_embedding items; mret (Some e)
  | None =>
      say (Printed ("Error: unexpected response for text: " +:+ text));;
      mret None
  end.

(** The loop of [generate_embeddings] over the rows [(i, row['text'])] of
    the frame: the list [embeddings] at its end. *)
Fixpoint embeddings_of (rows : list (nat * string))
  : Out (list (option Vector)) :=
  match rows with
  | [] => mret []
  | (i, text) :: rest =>
      say (Printed ("Processing index " +:+ pretty i));;
      embedding ←
        catch (get_embedding_for_text text)
          (fun e =>
             say (Printed ("Exception at index " +:+ pretty i +:+ ": "
                           +:+ str e));;
             mret None);
      embeddings ← embeddings_of rest;
      mret (embedding :: embeddings)
  end.

(** [generate_embeddings]: the frame, a row being its index label and its
    text, with the new column [embeddings]. *)
Definition generate_embeddings (df : list (nat * string))
  : Out (list (nat * string * option Vector)) :=
  embeddings ← embeddings_of df;
  mret (combine df embeddings).

Definition answer_basic_question (question : string) (max_answer_tokens : Z)
  : Out string :=
  catch
    (response ← from_result (Completion_create question max_answer_tokens);
     t ← choice_text response;
     mret (strip t))
    (fun e => say (Printed ("Error: " +:+ str e));; mret "An error occurred.").

(** The embedding that a row gets for the response to its text. *)
Definition embedding_for (text : string) : option Vector :=
  match Embedding_create text with
  | Ok {| data := Some (Some e :: _) |} => Some e
  | _ => None
  end.

Definition lacks_embedding (row : nat * string) : bool :=
  match embedding_for (snd row) with
  | Some _ => false
  | None => true
  end.
End Embeddings.

(** [key[-4:]]: the last four characters, or all of them. *)
Definition last4 (key : string) : string :=
  concat_strings (skipn (char_length key - 4) (chars key)).

(** [get_openai_api_key], from the lines that [getpass] returns one after
    the other; [getpass] raises at the end of the input. The prompt of
    [getpass] goes to the terminal and is not in the output. *)
Fixpoint get_openai_api_key (typed : list string) : Out string :=
  match typed with
  | [] => throw (Builtin EOFError)
  | line :: rest =>
      let key := strip line in
      if String.eqb key EmptyString then
        say (Printed "API key cannot be empty!");;
        get_openai_api_key rest
      else
        say (Printed ("API key configured (last 4 chars): ****"
                      +:+ last4 key));;
        mret key
  end.

(** A question that the ranker can take with the rows [rows]: the
    embedding call returns, and its response has no ['data'], or a first
    embedding of the dimension of the rows. *)
Definition answerable (Embedding_create : string -> Result EmbeddingResponse)
    (rows : list Row) (question : string) : Prop :=
  match Embedding_create question with
  | Raise _ => False
  | Ok response =>
      has_data response = false
      \/ exists q, first_embedding response = Ok q /\
                   Forall (fun r => length (embeddings r) = length q) rows
  end.

(** ** Example data *)

Definition passages_example : DataFrame :=
  Frame [ {| text := "January 1 – A"; embeddings := [1; 0]%R |};
          {| text := "January 2 – B"; embeddings := [0; 1]%R |} ].


(** U+00A0 in UTF-8. *)
Definition no_break_space : string :=
  String "194"%char (String "160"%char EmptyString).


Definition state_example : State :=
  {| heap := {[ 0%nat := passages_example ]}; stdout := [] |}.

Definition single_state : State :=
  {| heap := {[ 0%nat :=
       Frame [ {| text := "January 1 – A"; embeddings := [1; 0]%R |} ] ]};
     stdout := [] |}.

(** An embedding provider that is down, one that answers, one whose
    response has no ['data'], and a completion provider that answers. *)
Definition embedding_down (_ : string) : Result EmbeddingResponse :=
  Raise ProviderError.

Definition embedding_up (_ : string) : Result EmbeddingResponse :=
  Ok {| data := Some [Some [1; 0]%R] |}.

Definition embedding_no_data (_ : string) : Result EmbeddingResponse :=
  Ok {| data := None |}.

(** A response whose first item has no ['embedding'], and one whose
    embedding has one component. *)
Definition embedding_no_item (_ : string) : Result EmbeddingResponse :=
  Ok {| data := Some [None] |}.

Definition embedding_short (_ : string) : Result EmbeddingResponse :=
  Ok {| data := Some [Some [1]%R] |}.

Definition completion_up (_ : string) (_ : Z) : Result CompletionResponse :=
  Ok {| choices := Some [Some " Yes. "] |}.

(** * Properties *)

(** ** Corpus loader *)

Example split_example :
  split "010" ("a" +:+ nl +:+ nl +:+ "b") = ["a"; ""; "b"].
Proof. reflexivity. Qed.

Example load_dataset_example :
  load_dataset is_january_1 corpus_example =
  [" – 2024 was a leap year."; "January 1 – New year"; "March 3 – Spring"].
Proof. reflexivity. Qed.

Lemma prefix_app (s b : string) : String.prefix s (s +:+ b) = true.
Proof.
  induction s as [|a s IH].
  - now destruct b.
  - change (String.prefix (String a s) (String a (s +:+ b)) = true).
    cbn [String.prefix]. destruct (ascii_dec a a); [exact IH | congruence].
Qed.

Lemma contains_prefix (s t : string) :
  String.prefix s t = true -> contains s t = true.
Proof. intros H. destruct t; cbn [contains]; rewrite H; reflexivity. Qed.

Lemma contains_app (a s b : string) : contains s (a +:+ s +:+ b) = true.
Proof.
  induction a as [|c a IH].
  - change (contains s (s +:+ b) = true). apply contains_prefix, prefix_app.
  - change (contains s (String c (a +:+ s +:+ b)) = true).
    cbn [contains]. rewrite IH. apply orb_true_r.
Qed.

Section LoaderProperties.
Variable parse : string -> bool.

Lemma prefix_dates_from (rest : list string) :
  forall (done : list string) (prefix : string),
    snd (fold_left (prefix_step parse)
           (seq (length done) (length rest)) (prefix, done ++ rest)) =
    done ++ prefixed parse prefix rest.
Proof.
  induction rest as [|t rest IH]; intros done prefix.
  - reflexivity.
  - cbn [length seq fold_left prefixed]. unfold prefix_step at 2.
    rewrite list_lookup_middle by reflexivity.
    assert (Hnext : forall x p,
      snd (fold_left (prefix_step parse)
             (seq (S (length done)) (length rest)) (p, done ++ x :: rest)) =
      done ++ x :: prefixed parse p rest).
    { intros x p.
      replace (done ++ x :: rest) with ((done ++ [x]) ++ rest)
        by (rewrite <- app_assoc; reflexivity).
      replace (S (length done)) with (length (done ++ [x]))
        by (rewrite length_app; simpl; lia).
      rewrite IH, <- app_assoc. reflexivity. }
    destruct (contains date_sep t); [apply Hnext|].
    destruct (parse t); [apply Hnext|].
    rewrite insert_app_r_alt, Nat.sub_diag by reflexivity. apply Hnext.
Qed.

Lemma prefix_dates_prefixed (df : list string) :
  prefix_dates parse df = prefixed parse EmptyString df.
Proof. apply (prefix_dates_from df [] EmptyString). Qed.

Lemma filter_prefixed (lines : list string) :
  forall prefix,
    List.filter (contains date_sep) (prefixed parse prefix lines) =
    dated parse prefix lines.
Proof.
  induction lines as [|t lines IH]; intros prefix; [reflexivity|].
  cbn [prefixed dated].
  destruct (contains date_sep t) eqn:Hsep.
  - cbn [List.filter]. rewrite Hsep, IH. reflexivity.
  - destruct (parse t); cbn [List.filter].
    + rewrite Hsep. apply IH.
    + rewrite contains_app, IH. reflexivity.
Qed.

Lemma load_dataset_dated (extract : string) :
  load_dataset parse extract =
  dated parse EmptyString (kept_lines extract).
Proof.
  unfold load_dataset. rewrite prefix_dates_prefixed. apply filter_prefixed.
Qed.

Lemma prefix_after_cons (prefix t : string) (before : list string) :
  prefix_after parse prefix (t :: before) =
  prefix_after parse
    (if is_date_line parse t then t else prefix)
    before.
Proof. reflexivity. Qed.

Lemma dated_app (before : list string) :
  forall prefix rest,
    dated parse prefix (before ++ rest) =
    dated parse prefix before
    ++ dated parse (prefix_after parse prefix before) rest.
Proof.
  induction before as [|t before IH]; intros prefix rest; [reflexivity|].
  rewrite prefix_after_cons. unfold is_date_line. cbn [app dated].
  destruct (contains date_sep t); cbn [negb andb].
  - rewrite IH. reflexivity.
  - destruct (parse t); rewrite IH; reflexivity.
Qed.

Lemma dated_In_inv (lines : list string) :
  forall prefix p,
    In p (dated parse prefix lines) ->
    exists before l after,
      lines = before ++ l :: after /\ passage_of parse prefix before l p.
Proof.
  induction lines as [|t lines IH]; intros prefix p Hin; cbn [dated] in Hin.
  - destruct Hin.
  - assert (Hlater : forall q,
      q = (if is_date_line parse t then t else prefix) ->
      In p (dated parse q lines) ->
      exists before l after,
        t :: lines = before ++ l :: after /\ passage_of parse prefix before l p).
    { intros q -> Hq. apply IH in Hq.
      destruct Hq as (before & l & after & -> & Hl).
      exists (t :: before), l, after. split; [reflexivity|].
      unfold passage_of. rewrite prefix_after_cons. exact Hl. }
    unfold is_date_line in Hlater.
    destruct (contains date_sep t) eqn:Hsep; cbn [negb andb] in Hlater.
    + destruct Hin as [<- | Hin]; [|now apply (Hlater prefix)].
      exists [], t, lines. split; [reflexivity|]. left. now split.
    + destruct (parse t) eqn:Hparse; [now apply (Hlater t)|].
      destruct Hin as [<- | Hin]; [|now apply (Hlater prefix)].
      exists [], t, lines. split; [reflexivity|]. right. now repeat split.
Qed.

Lemma dated_In_intro (prefix : string) (before after : list string)
    (l p : string) :
  passage_of parse prefix before l p ->
  In p (dated parse prefix (before ++ l :: after)).
Proof.
  intros Hl. rewrite dated_app. apply in_or_app. right. cbn [dated].
  destruct Hl as [[Hsep ->] | (Hsep & Hparse & ->)].
  - rewrite Hsep. now left.
  - rewrite Hsep, Hparse. now left.
Qed.

Lemma prefix_after_last (before : list string) :
  (Forall (fun t => is_date_line parse t = false) before /\
   prefix_after parse EmptyString before = EmptyString)
  \/ (exists b1 d b2,
        before = b1 ++ d :: b2 /\ is_date_line parse d = true /\
        Forall (fun t => is_date_line parse t = false) b2 /\
        prefix_after parse EmptyString before = d).
Proof.
  induction before as [|t before IH] using rev_ind.
  - left. split; [constructor | reflexivity].
  - unfold prefix_after in *. rewrite fold_left_app. cbn [fold_left].
    destruct (is_date_line parse t) eqn:Ht.
    + right. exists before, t, []. repeat split; auto.
    + destruct IH as [[Hall Hpre] | (b1 & d & b2 & -> & Hd & Hall & Hpre)].
      * left. split; [|exact Hpre].
        apply Forall_app. split; [exact Hall | now constructor].
      * right. exists b1, d, (b2 ++ [t]). repeat split; auto.
        -- rewrite <- app_assoc. reflexivity.
        -- apply Forall_app. split; [exact Hall | now constructor].
Qed.

(** C5, as the code has it: [load_dataset] returns, in corpus order, the
    kept lines (not empty, no heading) that have the separator, as they
    are, and the kept lines that have none and do not parse as a date,
    each behind the prefix in force and the separator. The prefix in
    force is the most recent earlier date line (a kept line with no
    separator that parses as a date), and the empty string where there is
    none: such a line is returned, behind an empty prefix. The lines not
    returned are the date lines. *)
Theorem load_dataset_passages (extract : string) :
  load_dataset parse extract = dated parse EmptyString (kept_lines extract)
  /\ (forall p,
        In p (load_dataset parse extract) <->
        exists before l after,
          kept_lines extract = before ++ l :: after /\
          passage_of parse EmptyString before l p)
  /\ (forall before,
        (Forall (fun t => is_date_line parse t = false) before /\
         prefix_after parse EmptyString before = EmptyString)
        \/ (exists b1 d b2,
              before = b1 ++ d :: b2 /\ is_date_line parse d = true /\
              Forall (fun t => is_date_line parse t = false) b2 /\
              prefix_after parse EmptyString before = d)).
Proof.
  split; [apply load_dataset_dated|]. split; [|apply prefix_after_last].
  intros p. rewrite load_dataset_dated. split.
  - apply dated_In_inv.
  - intros (before & l & after & -> & Hl). now apply dated_In_intro.
Qed.
End LoaderProperties.

(** C5, as stated, fails: the first line of the example has no date line
    before it, and it is returned, behind an empty prefix. *)
Lemma load_dataset_keeps_undated_line : ~ all_dated is_january_1 corpus_example.
Proof.
  intros H.
  destruct (H " – 2024 was a leap year.") as [[Hin _] | Hdated].
  - rewrite load_dataset_dated. vm_compute. auto.
  - vm_compute in Hin. intuition discriminate.
  - destruct Hdated as (before & l & after & d & _ & _ & Hd & Heq).
    apply String.eqb_eq in Hd. subst d. discriminate Heq.
Qed.


(** ** Cosine distance *)

Lemma dot_self_nonneg (v : Vector) : (0 <= dot v v)%R.
Proof.
  induction v as [|x v IH]; cbn [dot]; [lra|].
  pose proof (Rle_0_sqr x) as Hx. unfold Rsqr in Hx. lra.
Qed.

Lemma dot_self_pos (v : Vector) : nonzero v -> (0 < dot v v)%R.
Proof.
  induction 1 as [x v Hx | x v _ IH]; cbn [dot].
  - pose proof (dot_self_nonneg v). pose proof (Rsqr_pos_lt x Hx) as Hsq.
    unfold Rsqr in Hsq. lra.
  - pose proof (Rle_0_sqr x) as Hx. unfold Rsqr in Hx. lra.
Qed.

Lemma dot_zero_l (z : Vector) : all_zero z -> forall u, dot z u = 0%R.
Proof.
  induction 1 as [|x z -> _ IH]; intros u; [reflexivity|].
  destruct u as [|y u]; cbn [dot]; [reflexivity|]. rewrite IH. lra.
Qed.

Lemma dot_negate_r (u v : Vector) : dot u (negate v) = (- dot u v)%R.
Proof.
  revert v. induction u as [|x u IH]; intros [|y v]; cbn [dot negate map];
    try lra.
  fold (negate v). rewrite IH. lra.
Qed.

Lemma dot_negate_negate (v : Vector) : dot (negate v) (negate v) = dot v v.
Proof.
  induction v as [|x v IH]; cbn [dot negate map]; [reflexivity|].
  fold (negate v). rewrite IH. lra.
Qed.

Lemma norm_sqr (v : Vector) : (norm v * norm v = dot v v)%R.
Proof. apply sqrt_sqrt, dot_self_nonneg. Qed.

Lemma norm_pos (v : Vector) : nonzero v -> (0 < norm v)%R.
Proof. intros H. apply sqrt_lt_R0, dot_self_pos, H. Qed.

Lemma norm_zero (z : Vector) : all_zero z -> norm z = 0%R.
Proof. intros H. unfold norm. rewrite (dot_zero_l z H). apply sqrt_0. Qed.

Lemma norm_negate (v : Vector) : norm (negate v) = norm v.
Proof. unfold norm. rewrite dot_negate_negate. reflexivity. Qed.

Lemma cosine_distance_self (v : Vector) :
  nonzero v -> cosine_distance v v = Num 0.
Proof.
  intros H. unfold cosine_distance. pose proof (norm_pos v H) as Hn.
  destruct (Req_dec_T (norm v * norm v) 0) as [E|_]; [nra|].
  f_equal. rewrite norm_sqr. pose proof (dot_self_pos v H). field. lra.
Qed.

Lemma cosine_distance_negate (v : Vector) :
  nonzero v -> cosine_distance v (negate v) = Num 2.
Proof.
  intros H. unfold cosine_distance. rewrite norm_negate, dot_negate_r.
  pose proof (norm_pos v H) as Hn.
  destruct (Req_dec_T (norm v * norm v) 0) as [E|_]; [nra|].
  f_equal. rewrite norm_sqr. pose proof (dot_self_pos v H). field. lra.
Qed.

Lemma cosine_distance_zero_l (z u : Vector) :
  all_zero z -> cosine_distance z u = NaN.
Proof.
  intros H. unfold cosine_distance. rewrite (norm_zero z H).
  destruct (Req_dec_T (0 * norm u) 0) as [_|E]; [reflexivity|].
  exfalso. apply E. lra.
Qed.

Lemma cosine_distance_zero_r (u z : Vector) :
  all_zero z -> cosine_distance u z = NaN.
Proof.
  intros H. unfold cosine_distance. rewrite (norm_zero z H).
  destruct (Req_dec_T (norm u * 0) 0) as [_|E]; [reflexivity|].
  exfalso. apply E. lra.
Qed.

Lemma length_negate (v : Vector) : length (negate v) = length v.
Proof. apply length_map. Qed.

(** C6, as the code has it: the distance from a nonzero vector to itself
    is 0 and to its negation 2; with a zero vector on either side the
    quotient is 0/0 and the distance is no number: the value 2.0 is not
    put in its place. *)
Theorem cosine_cases (v z u : Vector) :
  nonzero v -> all_zero z -> length z = length u ->
  cosine v v = Ok (Num 0) /\
  cosine v (negate v) = Ok (Num 2) /\
  cosine z u = Ok NaN /\
  cosine u z = Ok NaN.
Proof.
  intros Hv Hz Hlen. unfold cosine.
  rewrite length_negate, Hlen, !Nat.eqb_refl.
  rewrite cosine_distance_self, cosine_distance_negate by assumption.
  rewrite cosine_distance_zero_l, cosine_distance_zero_r by assumption.
  repeat split.
Qed.

Lemma cosine_cases_witness :
  cosine [3; 4]%R [3; 4]%R = Ok (Num 0) /\
  cosine [3; 4]%R (negate [3; 4]%R) = Ok (Num 2) /\
  cosine [0; 0]%R [1; 2]%R = Ok NaN /\
  cosine [1; 2]%R [0; 0]%R = Ok NaN.
Proof.
  apply (cosine_cases [3; 4]%R [0; 0]%R [1; 2]%R).
  - left. lra.
  - repeat constructor.
  - reflexivity.
Defined.

(** C6, as stated, fails: the distance from the zero vector is not 2. *)
Lemma cosine_zero_vector_not_2 :
  cosine [0; 0]%R [1; 0]%R = Ok NaN /\
  cosine [0; 0]%R [1; 0]%R <> Ok (Num 2).
Proof.
  assert (H : cosine [0; 0]%R [1; 0]%R = Ok NaN).
  { unfold cosine. cbn [length Nat.eqb].
    rewrite cosine_distance_zero_l by repeat constructor. reflexivity. }
  split; [exact H|]. rewrite H. discriminate.
Qed.

(** ** Stable selection of the smallest distances *)

Lemma dist_leb_le (a b : dist) : dist_leb a b = true <-> dist_le a b.
Proof.
  destruct a as [x|], b as [y|]; cbn; try tauto; try easy.
  destruct (Rle_dec x y); split; intros; auto; discriminate.
Qed.

Lemma dist_leb_false (a b : dist) : dist_leb a b = false -> dist_le b a.
Proof.
  destruct a as [x|], b as [y|]; cbn; try easy.
  destruct (Rle_dec x y); [discriminate|]. intros _. lra.
Qed.

Lemma dist_le_trans (a b c : dist) : dist_le a b -> dist_le b c -> dist_le a c.
Proof.
  destruct a as [x|], b as [y|], c as [z|]; cbn; try easy. intros. lra.
Qed.

Lemma dist_eqb_leb (a b d : dist) :
  dist_eqb a d = true -> dist_eqb b d = true -> dist_leb a b = true.
Proof.
  destruct a as [x|], b as [y|], d as [z|]; cbn; try easy.
  destruct (Req_dec_T x z), (Req_dec_T y z), (Rle_dec x y);
    try easy. lra.
Qed.

Lemma insert_row_perm (x : Row * dist) (l : list (Row * dist)) :
  Permutation (insert_row x l) (x :: l).
Proof.
  induction l as [|y l IH]; cbn [insert_row]; [reflexivity|].
  destruct (dist_leb (snd x) (snd y)); [reflexivity|].
  rewrite IH. apply perm_swap.
Qed.

Lemma sort_by_distance_perm (l : list (Row * dist)) :
  Permutation (sort_by_distance l) l.
Proof.
  induction l as [|x l IH]; cbn; [reflexivity|].
  fold (sort_by_distance l). rewrite insert_row_perm. now constructor.
Qed.

Lemma insert_row_sorted (x : Row * dist) (l : list (Row * dist)) :
  Sorted row_le l -> Sorted row_le (insert_row x l).
Proof.
  induction l as [|y l IH]; intros Hs; cbn [insert_row].
  - repeat constructor.
  - destruct (dist_leb (snd x) (snd y)) eqn:Hxy.
    + constructor; [exact Hs|]. constructor. now apply dist_leb_le.
    + apply Sorted_inv in Hs as [Hs Hhd]. constructor; [now apply IH|].
      apply dist_leb_false in Hxy.
      destruct l as [|z l]; cbn [insert_row]; [now constructor|].
      destruct (dist_leb (snd x) (snd z)); constructor; [exact Hxy|].
      now apply HdRel_inv in Hhd.
Qed.

Lemma sort_by_distance_sorted (l : list (Row * dist)) :
  StronglySorted row_le (sort_by_distance l).
Proof.
  apply Sorted_StronglySorted.
  - intros a b c. apply dist_le_trans.
  - induction l as [|x l IH]; cbn; [constructor|].
    now apply insert_row_sorted.
Qed.

Lemma insert_row_at_distance (d : dist) (x : Row * dist)
    (l : list (Row * dist)) :
  List.filter (at_distance d) (insert_row x l) =
  List.filter (at_distance d) (x :: l).
Proof.
  induction l as [|y l IH]; cbn [insert_row]; [reflexivity|].
  destruct (dist_leb (snd x) (snd y)) eqn:Hxy; [reflexivity|].
  cbn [List.filter] in *. rewrite IH.
  destruct (at_distance d x) eqn:Hx, (at_distance d y) eqn:Hy; try reflexivity.
  unfold at_distance in Hx, Hy.
  rewrite (dist_eqb_leb _ _ _ Hx Hy) in Hxy. discriminate.
Qed.

Lemma sort_by_distance_stable (d : dist) (l : list (Row * dist)) :
  List.filter (at_distance d) (sort_by_distance l) =
  List.filter (at_distance d) l.
Proof.
  induction l as [|x l IH]; [reflexivity|].
  cbn [sort_by_distance fold_right]. fold (sort_by_distance l).
  rewrite insert_row_at_distance. cbn [List.filter]. now rewrite IH.
Qed.

Lemma dist_leb_Num (x y : R) : (x <= y)%R -> dist_leb (Num x) (Num y) = true.
Proof. intros H. cbn. destruct (Rle_dec x y); [reflexivity | contradiction]. Qed.




Lemma sort_by_distance_ascending : ascending_sort sort_by_distance.
Proof.
  intros rows. split; [apply sort_by_distance_perm | apply sort_by_distance_sorted].
Qed.

(** What [nsmallest] returns is the head of an ascending arrangement of
    the rows; with more rows than [n], of the one that keeps rows of equal
    distance in their order. *)
Lemma nsmallest_head (sort_values : list (Row * dist) -> list (Row * dist))
    (n : Z) (l : list (Row * dist)) :
  ascending_sort sort_values ->
  0 <= n ->
  exists rest,
    Z.of_nat (length (nsmallest sort_values n l))
      = Z.min n (Z.of_nat (length l)) /\
    Permutation (nsmallest sort_values n l ++ rest) l /\
    StronglySorted row_le (nsmallest sort_values n l ++ rest) /\
    (n < Z.of_nat (length l) ->
     forall x, List.filter (at_distance x) (nsmallest sort_values n l ++ rest)
               = List.filter (at_distance x) l).
Proof.
  intros Hsort Hn. unfold nsmallest.
  destruct (Z.leb_spec n 0) as [H0|H0].
  - exists (sort_by_distance l). cbn [app length].
    split; [lia|]. split; [apply sort_by_distance_perm|].
    split; [apply sort_by_distance_sorted|].
    intros _ x. apply sort_by_distance_stable.
  - destruct (Z.leb_spec (Z.of_nat (length l)) n) as [Hall|Hsome].
    + destruct (Hsort l) as [Hperm Hsorted]. exists [].
      rewrite firstn_all2
        by (rewrite (Permutation_length Hperm); lia).
      rewrite app_nil_r. split; [rewrite (Permutation_length Hperm); lia|].
      split; [exact Hperm|]. split; [exact Hsorted|]. lia.
    + exists (skipn (Z.to_nat n) (sort_by_distance l)).
      split.
      { rewrite length_firstn,
          (Permutation_length (sort_by_distance_perm l)). lia. }
      rewrite firstn_skipn.
      split; [apply sort_by_distance_perm|].
      split; [apply sort_by_distance_sorted|].
      intros _ x. apply sort_by_distance_stable.
Qed.


Lemma distances_from_embeddings_ok (q : Vector) (es : list Vector) :
  Forall (fun e => length e = length q) es ->
  distances_from_embeddings q es = Ok (map (cosine_distance q) es).
Proof.
  induction 1 as [|e es He _ IH]; [reflexivity|].
  cbn [distances_from_embeddings map]. unfold cosine.
  rewrite He, Nat.eqb_refl, IH. reflexivity.
Qed.

Lemma combine_scored (q : Vector) (rows : list Row) :
  combine rows (map (cosine_distance q) (map embeddings rows)) = scored q rows.
Proof.
  induction rows as [|r rows IH]; [reflexivity|].
  cbn [map combine scored]. f_equal. exact IH.
Qed.

Lemma cosine_distance_orthogonal : cosine_distance [1; 0]%R [0; 1]%R = Num 1.
Proof.
  unfold cosine_distance, norm. cbn [dot].
  replace (1 * 1 + (0 * 0 + 0))%R with 1%R by lra.
  replace (0 * 0 + (1 * 1 + 0))%R with 1%R by lra.
  rewrite sqrt_1.
  destruct (Req_dec_T (1 * 1) 0) as [E|_]; [lra|]. f_equal. field.
Qed.

(** The question vector is the embedding of the first passage: that passage
    comes first, at distance 0. *)
Example rank_example :
  nsmallest sort_values_reversing 1
    (scored [1; 0]%R (frame_rows passages_example)) =
  [({| text := "January 1 – A"; embeddings := [1; 0]%R |}, Num 0)].
Proof.
  unfold scored. cbn [passages_example frame_rows map embeddings].
  rewrite cosine_distance_self by (left; lra).
  rewrite cosine_distance_orthogonal.
  unfold nsmallest. cbn [length sort_by_distance fold_right insert_row snd].
  rewrite dist_leb_Num by lra. reflexivity.
Qed.



(** ** Prompt composer *)

Lemma append_assoc (a b c : string) : (a +:+ b) +:+ c = a +:+ (b +:+ c).
Proof.
  induction a as [|x a IH]; [reflexivity|].
  change (String x ((a +:+ b) +:+ c) = String x (a +:+ b +:+ c)). now rewrite IH.
Qed.

Lemma disallowed_template : disallowed prompt_template = false.
Proof. vm_compute. reflexivity. Qed.

Lemma format_prompt_empty (question : string) :
  format_prompt EmptyString question =
  nl +:+ "    Answer the question based on the context below. If the question can't be answered based on the context, say "
  +:+ dquote +:+ "I don't know." +:+ dquote +:+ nl +:+ nl +:+ "    Context: "
  +:+ nl +:+ nl +:+ "    ---" +:+ nl +:+ nl +:+ "    Question: " +:+ question
  +:+ nl +:+ nl +:+ "    Answer:" +:+ nl +:+ "    ".
Proof.
  unfold format_prompt, template_head, template_mid, template_tail.
  change (EmptyString +:+ ?x) with x. now rewrite !append_assoc.
Qed.

Lemma format_prompt_written (context question : string) :
  format_prompt context question =
  nl +:+ "    Answer the question based on the context below. If the question can't be answered based on the context, say "
  +:+ dquote +:+ "I don't know." +:+ dquote +:+ nl +:+ nl +:+ "    Context: "
  +:+ context
  +:+ nl +:+ nl +:+ "    ---" +:+ nl +:+ nl +:+ "    Question: " +:+ question
  +:+ nl +:+ nl +:+ "    Answer:" +:+ nl +:+ "    ".
Proof.
  unfold format_prompt, template_head, template_mid, template_tail.
  now rewrite !append_assoc.
Qed.

Section PromptProperties.
Variable encode : string -> list nat.

Lemma token_count_nonneg (s : string) : 0 <= token_count encode s.
Proof. unfold token_count. lia. Qed.

Lemma total_tokens_nonneg (l : list string) : 0 <= total_tokens encode l.
Proof.
  induction l as [|t l IH]; cbn [total_tokens fold_right]; [lia|].
  fold (total_tokens encode l). pose proof (token_count_nonneg t). lia.
Qed.

Lemma encoded_length_ok (s : string) :
  disallowed s = false -> encoded_length encode s = Ok (token_count encode s).
Proof. intros H. unfold encoded_length, tokenizer_encode. now rewrite H. Qed.

Lemma encoded_length_raise (s : string) :
  disallowed s = true -> encoded_length encode s = Raise ValueError.
Proof. intros H. unfold encoded_length, tokenizer_encode. now rewrite H. Qed.

Lemma encoded_length_inv (s : string) (n : Z) :
  encoded_length encode s = Ok n ->
  disallowed s = false /\ n = token_count encode s.
Proof.
  unfold encoded_length, tokenizer_encode.
  destruct (disallowed s); [discriminate|]. intros [= <-]. now split.
Qed.

Lemma pack_context_first_fit (max_token_count : Z) (values : list string) :
  forall current context,
  pack_context encode current max_token_count values = Ok context ->
  exists k : nat,
    (k <= length values)%nat /\
    context = firstn k values /\
    (forall j, (j < k)%nat ->
       current + total_tokens encode (firstn (S j) values) <= max_token_count) /\
    (forall text, nth_error values k = Some text ->
       max_token_count <
       current + total_tokens encode (firstn k values) + token_count encode text).
Proof.
  induction values as [|t values IH]; intros current context.
  - intros [= <-]. exists 0%nat.
    repeat split; [lia | intros j Hj; lia | ]. intros text H. discriminate.
  - cbn [pack_context].
    destruct (encoded_length encode t) as [n|e] eqn:Ht; [|discriminate].
    apply encoded_length_inv in Ht. destruct Ht as [_ ->].
    cbn [mbind Result_bind].
    destruct (current + token_count encode t <=? max_token_count) eqn:Hfit.
    + apply Z.leb_le in Hfit.
      destruct (pack_context encode (current + token_count encode t)
                  max_token_count values) as [context'|e] eqn:Hrest;
        [|discriminate].
      intros [= <-].
      destruct (IH _ _ Hrest) as (k & Hk & Hpack & Hin & Hout).
      exists (S k). cbn [length firstn nth_error]. repeat split.
      * lia.
      * now rewrite Hpack.
      * intros [|j] Hj.
        -- rewrite firstn_O. cbn [total_tokens fold_right]. lia.
        -- specialize (Hin j ltac:(lia)).
           cbn [total_tokens fold_right].
           fold (total_tokens encode (firstn (S j) values)). lia.
      * intros text Htext. specialize (Hout text Htext).
        cbn [total_tokens fold_right].
        fold (total_tokens encode (firstn k values)). lia.
    + apply Z.leb_gt in Hfit. intros [= <-].
      exists 0%nat. rewrite firstn_O. cbn [nth_error total_tokens fold_right].
      repeat split.
      * lia.
      * intros j Hj; lia.
      * intros text [= <-]. lia.
Qed.

Lemma pack_context_returns (max_token_count : Z) (values : list string) :
  Forall (fun text => disallowed text = false) values ->
  forall current,
  exists context,
    pack_context encode current max_token_count values = Ok context.
Proof.
  induction 1 as [|t values Ht _ IH]; intros current; cbn [pack_context].
  - now exists [].
  - rewrite (encoded_length_ok t Ht). cbn [mbind Result_bind].
    destruct (current + token_count encode t <=? max_token_count).
    + destruct (IH (current + token_count encode t)) as (context & ->).
      now exists (t :: context).
    + now exists [].
Qed.

Lemma context_of_inv (question : string) (df : DataFrame)
    (max_token_count : Z) (context : list string) :
  context_of encode question df max_token_count = Ok context ->
  disallowed question = false /\
  pack_context encode (base_token_count encode question) max_token_count
    (texts df) = Ok context.
Proof.
  unfold context_of. rewrite (encoded_length_ok _ disallowed_template).
  cbn [mbind Result_bind].
  destruct (encoded_length encode question) as [n|e] eqn:Hq; [|discriminate].
  apply encoded_length_inv in Hq. destruct Hq as [Hq ->]. now split.
Qed.

Lemma context_of_allowed (question : string) (df : DataFrame)
    (max_token_count : Z) :
  disallowed question = false ->
  context_of encode question df max_token_count =
  pack_context encode (base_token_count encode question) max_token_count
    (texts df).
Proof.
  intros Hq. unfold context_of.
  rewrite (encoded_length_ok _ disallowed_template), (encoded_length_ok _ Hq).
  reflexivity.
Qed.

Lemma create_prompt_inv (question : string) (df : DataFrame)
    (max_token_count : Z) (prompt : string) :
  create_prompt encode question df max_token_count = Ok prompt ->
  exists context,
    context_of encode question df max_token_count = Ok context /\
    prompt = format_prompt (join context_sep context) question.
Proof.
  unfold create_prompt.
  destruct (context_of encode question df max_token_count) as [context|e];
    [|discriminate].
  intros [= <-]. now exists context.
Qed.


Lemma create_prompt_contains_question (question : string) (df : DataFrame)
    (max_token_count : Z) (prompt : string) :
  create_prompt encode question df max_token_count = Ok prompt ->
  contains question prompt = true.
Proof.
  intros Hprompt.
  destruct (create_prompt_inv _ _ _ _ Hprompt) as (context & _ & ->).
  unfold format_prompt.
  rewrite <- (append_assoc _ template_mid), <- (append_assoc template_head).
  apply contains_app.
Qed.

(** What the loop bounds: the prompt contains the question, and whenever
    the template and the question fit, the total that the function keeps
    (the tokens of the template, of the question and of each text of the
    context, encoded one by one) is within [max_token_count]. The
    separators of the context block are not in that total. *)
Lemma create_prompt_accounted (question : string) (df : DataFrame)
    (max_token_count : Z) (prompt : string) :
  create_prompt encode question df max_token_count = Ok prompt ->
  contains question prompt = true
  /\ (base_token_count encode question <= max_token_count ->
      exists context,
        prompt = format_prompt (join context_sep context) question /\
        base_token_count encode question + total_tokens encode context
          <= max_token_count).
Proof.
  intros Hprompt.
  split; [now apply (create_prompt_contains_question question df
                       max_token_count)|].
  intros Hbase.
  destruct (create_prompt_inv _ _ _ _ Hprompt) as (context & Hcontext & ->).
  apply context_of_inv in Hcontext. destruct Hcontext as [_ Hpack].
  destruct (pack_context_first_fit _ _ _ _ Hpack) as (k & _ & -> & Hin & _).
  exists (firstn k (texts df)). split; [reflexivity|].
  destruct k as [|j].
  - rewrite firstn_O. cbn [total_tokens fold_right]. lia.
  - apply Hin. lia.
Qed.

(** C4, what the code does: with a budget that the template and the
    question are within, two texts whose tokens, with those of the
    template and of the question, come to the budget exactly both pass
    the test of the loop, and the prompt has them with the separator
    between them, whose tokens are in no total. *)
Theorem create_prompt_separator_uncounted :
  base_token_count encode "q"
    <= base_token_count encode "q" + token_count encode "a"
       + token_count encode "b"
  /\ create_prompt encode "q"
    (Frame [ {| text := "a"; embeddings := [] |};
             {| text := "b"; embeddings := [] |} ])
    (base_token_count encode "q" + token_count encode "a"
     + token_count encode "b") =
  Ok (nl +:+ "    Answer the question based on the context below. If the question can't be answered based on the context, say "
      +:+ dquote +:+ "I don't know." +:+ dquote +:+ nl +:+ nl
      +:+ "    Context: "
      +:+ "a" +:+ nl +:+ nl +:+ "###" +:+ nl +:+ nl +:+ "b"
      +:+ nl +:+ nl +:+ "    ---" +:+ nl +:+ nl
      +:+ "    Question: " +:+ "q" +:+ nl +:+ nl
      +:+ "    Answer:" +:+ nl +:+ "    ").
Proof.
  split; [pose proof (token_count_nonneg "a");
          pose proof (token_count_nonneg "b"); lia|].
  replace (nl +:+ "    Answer the question based on the context below. If the question can't be answered based on the context, say "
      +:+ dquote +:+ "I don't know." +:+ dquote +:+ nl +:+ nl
      +:+ "    Context: "
      +:+ "a" +:+ nl +:+ nl +:+ "###" +:+ nl +:+ nl +:+ "b"
      +:+ nl +:+ nl +:+ "    ---" +:+ nl +:+ nl
      +:+ "    Question: " +:+ "q" +:+ nl +:+ nl
      +:+ "    Answer:" +:+ nl +:+ "    ")
    with (format_prompt
            ("a" +:+ nl +:+ nl +:+ "###" +:+ nl +:+ nl +:+ "b") "q")
    by (rewrite format_prompt_written; reflexivity).
  unfold create_prompt. rewrite context_of_allowed by reflexivity.
  cbn [texts frame_rows map text pack_context].
  rewrite !encoded_length_ok by reflexivity. cbn [mbind Result_bind].
  rewrite Z.leb_refl.
  destruct (Z.leb_spec (base_token_count encode "q" + token_count encode "a")
              (base_token_count encode "q" + token_count encode "a"
               + token_count encode "b")) as [_|H];
    [|pose proof (token_count_nonneg "b"); lia].
  cbn [mbind Result_bind mret Result_ret pack_context].
  reflexivity.
Qed.

Lemma create_prompt_question_only_returns (question : string)
    (df : DataFrame) (max_token_count : Z) :
  disallowed question = false ->
  Forall (fun text => disallowed text = false) (texts df) ->
  exists prompt,
    create_prompt encode question df max_token_count = Ok prompt.
Proof.
  intros Hq Htexts. unfold create_prompt.
  rewrite (context_of_allowed _ _ _ Hq).
  destruct (pack_context_returns max_token_count (texts df) Htexts
              (base_token_count encode question)) as (context & ->).
  eexists. reflexivity.
Qed.

(** C8, as the code has it: [create_prompt] raises [ValueError] when the
    question spells a special token of the tokenizer. When neither the
    question nor a text of the frame does, it returns a prompt, and for a
    budget below the tokens of the template and the question that prompt
    is the template with an empty context block and the question. *)
Theorem create_prompt_question_only (question : string) (df : DataFrame)
    (max_token_count : Z) :
  (disallowed question = true ->
   create_prompt encode question df max_token_count = Raise ValueError)
  /\ (disallowed question = false ->
      Forall (fun text => disallowed text = false) (texts df) ->
      (exists prompt,
         create_prompt encode question df max_token_count = Ok prompt)
      /\ (max_token_count < base_token_count encode question ->
          create_prompt encode question df max_token_count =
          Ok (nl +:+ "    Answer the question based on the context below. If the question can't be answered based on the context, say "
              +:+ dquote +:+ "I don't know." +:+ dquote +:+ nl +:+ nl
              +:+ "    Context: " +:+ nl +:+ nl +:+ "    ---" +:+ nl +:+ nl
              +:+ "    Question: " +:+ question +:+ nl +:+ nl
              +:+ "    Answer:" +:+ nl +:+ "    "))).
Proof.
  split.
  - intros Hq. unfold create_prompt, context_of.
    rewrite (encoded_length_ok _ disallowed_template).
    now rewrite (encoded_length_raise _ Hq).
  - intros Hq Htexts. unfold create_prompt.
    rewrite (context_of_allowed _ _ _ Hq). split.
    + destruct (pack_context_returns max_token_count (texts df) Htexts
                  (base_token_count encode question)) as (context & ->).
      eexists. reflexivity.
    + intros Hsmall. rewrite <- format_prompt_empty.
      destruct Htexts as [|t rest Ht _]; [reflexivity|]. cbn [pack_context].
      rewrite (encoded_length_ok t Ht). cbn [mbind Result_bind].
      pose proof (token_count_nonneg t).
      destruct (Z.leb_spec (base_token_count encode question
                            + token_count encode t) max_token_count);
        [lia | reflexivity].
Qed.
End PromptProperties.


Lemma create_prompt_question_only_witness :
  (exists prompt,
     create_prompt byte_encode "q" passages_example 10 = Ok prompt)
  /\ create_prompt byte_encode "q" passages_example 10 =
     Ok (nl +:+ "    Answer the question based on the context below. If the question can't be answered based on the context, say "
         +:+ dquote +:+ "I don't know." +:+ dquote +:+ nl +:+ nl
         +:+ "    Context: " +:+ nl +:+ nl +:+ "    ---" +:+ nl +:+ nl
         +:+ "    Question: " +:+ "q" +:+ nl +:+ nl
         +:+ "    Answer:" +:+ nl +:+ "    ").
Proof.
  destruct (create_prompt_question_only byte_encode "q" passages_example 10)
    as [_ Hreturns].
  destruct Hreturns as [Hprompt Honly].
  - reflexivity.
  - repeat (apply List.Forall_cons; [reflexivity|]). apply List.Forall_nil.
  - split; [exact Hprompt|]. apply Honly. vm_compute. reflexivity.
Defined.

(** C8, as stated, fails: a question that spells a special token makes
    [create_prompt] raise. *)
Lemma create_prompt_raises_on_special_token :
  create_prompt byte_encode "<|endoftext|>" passages_example 1500
    = Raise ValueError.
Proof. vm_compute. reflexivity. Qed.

(** ** Ranker, completion and the interactive loop *)

Lemma first_embedding_has_data (r : EmbeddingResponse) (q : Vector) :
  first_embedding r = Ok q -> has_data r = true.
Proof. unfold first_embedding, has_data. destruct (data r) as [[|[e|] l]|]; easy. Qed.

Lemma fresh_lookup_ne (m : gmap loc DataFrame) (l : loc) (d : DataFrame) :
  m !! l = Some d -> fresh (dom m) <> l.
Proof.
  intros Hl Heq. apply (is_fresh (dom m)). rewrite Heq.
  apply elem_of_dom. now exists d.
Qed.

Ltac frame_lookup Hl :=
  lazymatch goal with
  | |- <[_ := _]> _ !! _ = Some _ =>
      rewrite lookup_insert_ne;
      [frame_lookup Hl | eapply fresh_lookup_ne; frame_lookup Hl]
  | |- _ => exact Hl
  end.

Ltac run_monad :=
  unfold copy, df_head, df_nsmallest, set_distance, deref, alloc, assign,
    print, raise, lift, mbind, M_bind, mret, M_ret;
  cbn [heap stdout].

Lemma nsmallest_incl (sort_values : list (Row * dist) -> list (Row * dist))
    (n : Z) (l : list (Row * dist)) :
  ascending_sort sort_values -> incl (nsmallest sort_values n l) l.
Proof.
  intros Hsort a Ha. destruct (Z.leb_spec 0 n) as [Hn|Hn].
  - destruct (nsmallest_head sort_values n l Hsort Hn) as (rest & _ & Hperm & _).
    apply (Permutation_in _ Hperm). apply in_or_app. now left.
  - unfold nsmallest in Ha.
    destruct (Z.leb_spec n 0); [destruct Ha | lia].
Qed.

Section PipelineProperties.
Variable encode : string -> list nat.
Variable sort_values : list (Row * dist) -> list (Row * dist).
Variable Embedding_create : string -> Result EmbeddingResponse.
Variable Completion_create : string -> Z -> Result CompletionResponse.

Lemma get_relevant_rows_ranked_run (question : string) (df : loc) (top_n : Z)
    (σ : State) (response : EmbeddingResponse) (q : Vector) (d : DataFrame) :
  Embedding_create question = Ok response ->
  first_embedding response = Ok q ->
  heap σ !! df = Some d ->
  Forall (fun r => length (embeddings r) = length q) (frame_rows d) ->
  get_relevant_rows sort_values Embedding_create question df top_n σ =
    (Ok (fresh (dom (<[fresh (dom (heap σ)) := Scored (scored q (frame_rows d))]>
                       (<[fresh (dom (heap σ)) := d]> (heap σ))))),
     {| heap :=
          <[fresh (dom (<[fresh (dom (heap σ)) := Scored (scored q (frame_rows d))]>
                          (<[fresh (dom (heap σ)) := d]> (heap σ)))) :=
              Scored (nsmallest sort_values top_n (scored q (frame_rows d)))]>
            (<[fresh (dom (heap σ)) := Scored (scored q (frame_rows d))]>
               (<[fresh (dom (heap σ)) := d]> (heap σ)));
        stdout := stdout σ |}).
Proof.
  intros Hc Hq Hd Hdim. unfold get_relevant_rows. run_monad.
  rewrite Hc, (first_embedding_has_data _ _ Hq), Hq, Hd. cbn [heap stdout].
  rewrite lookup_insert_eq.
  rewrite distances_from_embeddings_ok by (apply Forall_map; exact Hdim).
  cbn [heap stdout]. rewrite lookup_insert_eq.
  rewrite !length_map, Nat.eqb_refl. cbn [heap stdout].
  rewrite lookup_insert_eq, combine_scored. reflexivity.
Qed.


Lemma get_relevant_rows_keeps (question : string) (df : loc) (top_n : Z)
    (σ : State) (l : loc) (d : DataFrame) :
  heap σ !! l = Some d ->
  heap (snd (get_relevant_rows sort_values Embedding_create question df
               top_n σ)) !! l = Some d.
Proof.
  intros Hl. unfold get_relevant_rows. run_monad.
  destruct (Embedding_create question) as [response|e]; [|exact Hl].
  destruct (has_data response).
  - destruct (first_embedding response) as [q|e]; [|exact Hl].
    destruct (heap σ !! df) as [d0|] eqn:Hdf; [|exact Hl]. cbn [heap stdout].
    rewrite lookup_insert_eq.
    destruct (distances_from_embeddings q (map embeddings (frame_rows d0)))
      as [distances|e]; cbn [snd heap]; [|frame_lookup Hl].
    rewrite lookup_insert_eq.
    destruct (Nat.eqb _ _); cbn [snd heap]; [|frame_lookup Hl].
    rewrite lookup_insert_eq. cbn [snd heap]. frame_lookup Hl.
  - destruct (heap σ !! df) as [d0|] eqn:Hdf; cbn [snd heap]; frame_lookup Hl.
Qed.

(** C10: a frame object that exists before the call, the input frame
    among them, holds the same rows after it, on the ranked path, on the
    fallback path and when the call raises: the distances go into a
    copy. *)
Theorem get_relevant_rows_frame (question : string) (df : loc) (top_n : Z)
    (σ : State) (l : loc) (d : DataFrame) :
  heap σ !! l = Some d ->
  heap (snd (get_relevant_rows sort_values Embedding_create question df
               top_n σ)) !! l = Some d.
Proof. apply get_relevant_rows_keeps. Qed.

Lemma get_relevant_rows_raise (question : string) (df : loc)
    (top_n : Z) (σ : State) (e : Exn) :
  Embedding_create question = Raise e ->
  get_relevant_rows sort_values Embedding_create question df top_n σ
    = (Raise e, σ).
Proof. intros He. unfold get_relevant_rows. run_monad. now rewrite He. Qed.

(** C2, what the code does: when the embedding provider raises for the
    question, [get_relevant_rows] raises the same exception; it returns no
    frame and prints no warning. *)
Theorem get_relevant_rows_provider_raises (question : string) (df : loc)
    (top_n : Z) (σ : State) (e : Exn) :
  Embedding_create question = Raise e ->
  get_relevant_rows sort_values Embedding_create question df top_n σ
    = (Raise e, σ)
  /\ stdout (snd (get_relevant_rows sort_values Embedding_create question df
                    top_n σ))
     = stdout σ.
Proof.
  intros He. rewrite (get_relevant_rows_raise _ _ _ _ e He). now split.
Qed.

Lemma get_relevant_rows_item_without_embedding (question : string)
    (df : loc) (top_n : Z) (σ : State) (response : EmbeddingResponse) (e : Exn) :
  Embedding_create question = Ok response ->
  has_data response = true ->
  first_embedding response = Raise e ->
  get_relevant_rows sort_values Embedding_create question df top_n σ
    = (Raise e, σ).
Proof.
  intros Hr Hd He. unfold get_relevant_rows. run_monad.
  now rewrite Hr, Hd, He.
Qed.

Lemma get_relevant_rows_fallback (question : string) (df : loc) (top_n : Z)
    (σ : State) (response : EmbeddingResponse) (d : DataFrame) :
  Embedding_create question = Ok response ->
  has_data response = false ->
  heap σ !! df = Some d ->
  get_relevant_rows sort_values Embedding_create question df top_n σ =
    (Ok (fresh (dom (heap σ))),
     {| heap := <[fresh (dom (heap σ)) := head top_n d]> (heap σ);
        stdout := stdout σ ++ [WarnNoData] |}).
Proof.
  intros Hr Hd Hdf. unfold get_relevant_rows. run_monad.
  now rewrite Hr, Hd, Hdf.
Qed.

Lemma get_relevant_rows_allocated (question : string) (df : loc) (top_n : Z)
    (σ σ1 : State) (l : loc) :
  get_relevant_rows sort_values Embedding_create question df top_n σ
    = (Ok l, σ1) ->
  is_Some (heap σ1 !! l).
Proof.
  unfold get_relevant_rows. run_monad.
  destruct (Embedding_create question) as [response|e]; [|discriminate].
  destruct (has_data response).
  - destruct (first_embedding response) as [q|e]; [|discriminate].
    destruct (heap σ !! df) as [d0|] eqn:Hdf; [|discriminate].
    cbn [heap stdout]. rewrite lookup_insert_eq.
    destruct (distances_from_embeddings q (map embeddings (frame_rows d0)))
      as [distances|e]; [|discriminate].
    cbn [heap stdout]. rewrite lookup_insert_eq.
    destruct (Nat.eqb _ _); [|discriminate].
    cbn [heap stdout]. rewrite lookup_insert_eq.
    intros [= <- <-]. cbn [heap]. rewrite lookup_insert_eq. eauto.
  - destruct (heap σ !! df) as [d0|] eqn:Hdf; [|discriminate].
    intros [= <- <-]. cbn [heap]. rewrite lookup_insert_eq. eauto.
Qed.

Lemma get_openai_answer_returns (prompt : string) (max_answer_tokens : Z)
    (σ : State) :
  exists (answer : string) (σ' : State),
    get_openai_answer Completion_create prompt max_answer_tokens σ
      = (Ok answer, σ') /\
    heap σ' = heap σ /\
    (forall e, Completion_create prompt max_answer_tokens = Raise e ->
       answer = "An error occurred.") /\
    (forall r, Completion_create prompt max_answer_tokens = Ok r ->
       has_choices r = false -> answer = "No answer found in response.").
Proof.
  unfold get_openai_answer, try_except. run_monad.
  destruct (Completion_create prompt max_answer_tokens) as [r|e].
  - destruct (has_choices r) eqn:Hc.
    + destruct (first_text r) as [t|e]; eexists _, _;
        (split; [reflexivity|]); (split; [reflexivity|]);
        split; intros; congruence.
    + eexists _, _. split; [reflexivity|]. split; [reflexivity|].
      split; intros; congruence.
  - eexists _, _. split; [reflexivity|]. split; [reflexivity|].
    split; intros; congruence.
Qed.

Lemma answer_question_with_context_returns (question : string) (df : loc)
    (max_prompt_tokens max_answer_tokens top_n : Z) (σ σ1 : State)
    (l : loc) (d : DataFrame) (prompt : string) :
  get_relevant_rows sort_values Embedding_create question df top_n σ
    = (Ok l, σ1) ->
  heap σ1 !! l = Some d ->
  create_prompt encode question d max_prompt_tokens = Ok prompt ->
  exists (answer : string) (σ2 : State),
    answer_question_with_context encode sort_values Embedding_create
      Completion_create question df max_prompt_tokens max_answer_tokens
      top_n σ
    = (Ok answer, σ2) /\ heap σ2 = heap σ1.
Proof.
  intros Hrows Hl Hprompt. unfold answer_question_with_context. run_monad.
  rewrite Hrows, Hl, Hprompt.
  destruct (get_openai_answer_returns prompt max_answer_tokens σ1)
    as (answer & σ2 & Hanswer & Hheap & _).
  exists answer, σ2. split; [exact Hanswer | exact Hheap].
Qed.

Lemma answer_question_with_context_prompt_raises (question : string)
    (df : loc) (max_prompt_tokens max_answer_tokens top_n : Z) (σ σ1 : State)
    (l : loc) (d : DataFrame) (e : Exn) :
  get_relevant_rows sort_values Embedding_create question df top_n σ
    = (Ok l, σ1) ->
  heap σ1 !! l = Some d ->
  create_prompt encode question d max_prompt_tokens = Raise e ->
  answer_question_with_context encode sort_values Embedding_create
    Completion_create question df max_prompt_tokens max_answer_tokens
    top_n σ
  = (Raise e, σ1).
Proof.
  intros Hrows Hl Hprompt. unfold answer_question_with_context. run_monad.
  now rewrite Hrows, Hl, Hprompt.
Qed.

Lemma interactive_loop_continues (user_input : string) (rest : list string)
    (data : loc) (σ σ2 : State) (l : loc) (d : DataFrame) (prompt : string) :
  lower user_input <> "exit" ->
  get_relevant_rows sort_values Embedding_create user_input data 10
    {| heap := heap σ;
       stdout := (stdout σ
                  ++ [Prompted "Ask a question (or type 'exit' to quit): "])
                  ++ [Printed ("You asked: " +:+ user_input)] |}
    = (Ok l, σ2) ->
  heap σ2 !! l = Some d ->
  create_prompt encode user_input d 1500 = Ok prompt ->
  exists σ3 : State,
    interactive_loop encode sort_values Embedding_create Completion_create
      (user_input :: rest) data σ =
    interactive_loop encode sort_values Embedding_create Completion_create
      rest data σ3.
Proof.
  intros Hexit Hrows Hl Hprompt. cbn [interactive_loop].
  apply String.eqb_neq in Hexit.
  destruct (answer_question_with_context_returns user_input data 1500 150 10
              _ σ2 l d prompt Hrows Hl Hprompt) as (answer & σ' & Hanswer & _).
  run_monad. rewrite Hexit. cbn [heap stdout]. rewrite Hanswer.
  cbn [heap stdout]. eexists. reflexivity.
Qed.

(** C7, what the code does: when the embedding provider raises for a
    question, the loop ends with that exception after it has echoed the
    question; no answer is printed and the later inputs are not read. *)
Theorem interactive_loop_stops_on_embedding_failure (user_input : string)
    (rest : list string) (data : loc) (σ : State) (e : Exn) :
  lower user_input <> "exit" ->
  Embedding_create user_input = Raise e ->
  interactive_loop encode sort_values Embedding_create Completion_create
    (user_input :: rest) data σ =
    (Raise e,
     {| heap := heap σ;
        stdout := (stdout σ
                   ++ [Prompted "Ask a question (or type 'exit' to quit): "])
                   ++ [Printed ("You asked: " +:+ user_input)] |}).
Proof.
  intros Hexit He. cbn [interactive_loop].
  apply String.eqb_neq in Hexit.
  unfold answer_question_with_context.
  run_monad. rewrite Hexit. cbn [heap stdout].
  rewrite (get_relevant_rows_raise _ _ _ _ e He). reflexivity.
Qed.
End PipelineProperties.



Lemma get_relevant_rows_frame_witness :
  heap (snd (get_relevant_rows sort_by_distance embedding_up "q" 0%nat 1
               state_example))
    !! 0%nat = Some passages_example.
Proof.
  apply (get_relevant_rows_frame sort_by_distance embedding_up "q" 0%nat 1
           state_example 0%nat passages_example).
  apply lookup_singleton_eq.
Defined.

Lemma get_relevant_rows_provider_raises_witness :
  get_relevant_rows sort_by_distance embedding_down "q" 0%nat 10 state_example
    = (Raise ProviderError, state_example)
  /\ stdout (snd (get_relevant_rows sort_by_distance embedding_down "q" 0%nat
                    10 state_example))
     = stdout state_example.
Proof.
  apply (get_relevant_rows_provider_raises sort_by_distance embedding_down
           "q" 0%nat 10 state_example ProviderError).
  reflexivity.
Defined.

Lemma interactive_loop_stops_on_embedding_failure_witness :
  interactive_loop byte_encode sort_by_distance embedding_down completion_up
    ["What happened?"; "And then?"; "exit"] 0%nat state_example =
    (Raise ProviderError,
     {| heap := heap state_example;
        stdout := (stdout state_example
                   ++ [Prompted "Ask a question (or type 'exit' to quit): "])
                   ++ [Printed ("You asked: " +:+ "What happened?")] |}).
Proof.
  apply (interactive_loop_stops_on_embedding_failure byte_encode
           sort_by_distance embedding_down completion_up "What happened?"
           ["And then?"; "exit"] 0%nat state_example ProviderError).
  - vm_compute. discriminate.
  - reflexivity.
Defined.

(** The fallback: the first [top_n] rows in corpus order, with no column
    [distance], and a printed warning. *)
Example fallback_example :
  get_relevant_rows sort_by_distance embedding_no_data "q" 0%nat 1
    state_example =
    (Ok (fresh (dom (heap state_example))),
     {| heap := <[fresh (dom (heap state_example)) :=
                   Frame [ {| text := "January 1 – A";
                              embeddings := [1; 0]%R |} ]]>
                  (heap state_example);
        stdout := [WarnNoData] |}).
Proof.
  apply (get_relevant_rows_fallback sort_by_distance embedding_no_data "q"
           0%nat 1 state_example {| data := None |} passages_example);
    [reflexivity | reflexivity | apply lookup_singleton_eq].
Qed.

(** A run of the loop with both providers up: the answer is stripped, and
    [EXIT] in any case ends the loop. *)
Example interactive_loop_example :
  fst (interactive_loop byte_encode sort_by_distance embedding_up
         completion_up ["Hi"; "EXIT"] 0%nat single_state) = Ok tt /\
  stdout (snd (interactive_loop byte_encode sort_by_distance embedding_up
                 completion_up ["Hi"; "EXIT"] 0%nat single_state)) =
    [Prompted "Ask a question (or type 'exit' to quit): ";
     Printed "You asked: Hi"; Printed "Yes.";
     Prompted "Ask a question (or type 'exit' to quit): "].
Proof. vm_compute. split; reflexivity. Qed.

(** * Further properties *)

(** ** More on the corpus loader *)

Lemma split_nonempty (c : ascii) (s : string) : split c s <> [].
Proof.
  induction s as [|a s IH]; cbn [split]; [discriminate|].
  destruct (Ascii.eqb a c); [discriminate|].
  destruct (split c s); [contradiction | discriminate].
Qed.

Lemma split_app (c : ascii) (a b : string) :
  split c (a +:+ String c b) = split c a ++ split c b.
Proof.
  induction a as [|x a IH].
  - change (split c (String c b) = [EmptyString] ++ split c b).
    cbn [split]. now rewrite Ascii.eqb_refl.
  - change (split c (String x (a +:+ String c b)) =
            split c (String x a) ++ split c b).
    cbn [split]. rewrite IH.
    destruct (Ascii.eqb x c); [reflexivity|].
    pose proof (split_nonempty c a) as Hne.
    destruct (split c a) as [|l ls]; [contradiction | reflexivity].
Qed.

Section MoreLoaderProperties.
Variable parse : string -> bool.

Lemma dated_length (lines : list string) :
  forall prefix,
    (length (dated parse prefix lines)
     + length (List.filter (is_date_line parse) lines) = length lines)%nat.
Proof.
  induction lines as [|t lines IH]; intros prefix; [reflexivity|].
  cbn [dated List.filter]. unfold is_date_line at 1.
  destruct (contains date_sep t); cbn [negb andb length].
  - rewrite <- (IH prefix). lia.
  - destruct (parse t); cbn [length].
    + rewrite <- (IH t). lia.
    + rewrite <- (IH prefix). lia.
Qed.

(** X1: the loader drops the date lines and nothing else: the passages and
    the date lines (kept lines with no separator that parse as a date)
    together are as many as the kept lines. *)
Theorem load_dataset_length (extract : string) :
  (length (load_dataset parse extract)
   + length (List.filter (is_date_line parse) (kept_lines extract))
   = length (kept_lines extract))%nat.
Proof. rewrite load_dataset_dated. apply dated_length. Qed.

(** X2: more text after a line break leaves the passages of the text before
    it as they are: the passages of the whole are those of the first part,
    then those of the lines of the second part read under the prefix that
    the first part leaves in force. *)
Theorem load_dataset_app (a b : string) :
  load_dataset parse (a +:+ nl +:+ b) =
  load_dataset parse a
  ++ dated parse (prefix_after parse EmptyString (kept_lines a))
       (kept_lines b).
Proof.
  rewrite !load_dataset_dated. unfold kept_lines.
  change (a +:+ nl +:+ b) with (a +:+ String "010" b).
  rewrite split_app, List.filter_app. apply dated_app.
Qed.
End MoreLoaderProperties.

(** ** More on the cosine distance *)

Lemma dot_comm (u : Vector) : forall v, dot u v = dot v u.
Proof.
  induction u as [|x u IH]; intros [|y v]; cbn [dot]; try reflexivity.
  rewrite (IH v). lra.
Qed.

Lemma dot_cauchy_schwarz (u : Vector) :
  forall v, (dot u v * dot u v <= dot u u * dot v v)%R.
Proof.
  induction u as [|x u IH]; intros [|y v]; cbn [dot]; try lra.
  specialize (IH v).
  pose proof (dot_self_nonneg u) as Ha. pose proof (dot_self_nonneg v) as Hb.
  set (a := dot u u) in *. set (b := dot v v) in *. set (d := dot u v) in *.
  assert (Hx : (0 <= x * x)%R) by nra. assert (Hy : (0 <= y * y)%R) by nra.
  assert (Hp : (0 <= x * x * b + y * y * a)%R) by nra.
  assert (Hsq : ((2 * (x * y * d)) * (2 * (x * y * d))
                 <= (x * x * b + y * y * a) * (x * x * b + y * y * a))%R).
  { pose proof (Rle_0_sqr (x * x * b - y * y * a)) as H1. unfold Rsqr in H1.
    assert (H2 : (0 <= (x * x) * (y * y) * (a * b - d * d))%R).
    { apply Rmult_le_pos; [apply Rmult_le_pos; assumption | lra]. }
    nra. }
  assert (Hle : (2 * (x * y * d) <= x * x * b + y * y * a)%R).
  { destruct (Rle_lt_dec (2 * (x * y * d)) (x * x * b + y * y * a)) as [H|H];
      [exact H|].
    pose proof (Rmult_le_0_lt_compat _ _ _ _ Hp Hp H H). lra. }
  nra.
Qed.

Lemma dot_le_norms (u v : Vector) : (dot u v <= norm u * norm v)%R.
Proof.
  pose proof (dot_cauchy_schwarz u v) as Hcs.
  pose proof (norm_sqr u) as Hu. pose proof (norm_sqr v) as Hv.
  assert (Hnu : (0 <= norm u)%R) by apply sqrt_pos.
  assert (Hnv : (0 <= norm v)%R) by apply sqrt_pos.
  assert (Hn : (0 <= norm u * norm v)%R) by nra.
  destruct (Rle_lt_dec (dot u v) (norm u * norm v)) as [H|H]; [exact H|].
  pose proof (Rmult_le_0_lt_compat _ _ _ _ Hn Hn H H). nra.
Qed.

Lemma dot_ge_norms (u v : Vector) : (- (norm u * norm v) <= dot u v)%R.
Proof.
  pose proof (dot_le_norms u (negate v)) as H.
  rewrite dot_negate_r, norm_negate in H. lra.
Qed.

(** X3: the cosine distance does not depend on the order of its two
    vectors, whether it is a number, no number, or refused. *)
Theorem cosine_comm (u v : Vector) : cosine u v = cosine v u.
Proof.
  unfold cosine. rewrite (Nat.eqb_sym (length u) (length v)).
  destruct (Nat.eqb (length v) (length u)); [|reflexivity].
  unfold cosine_distance.
  rewrite (dot_comm u v), (Rmult_comm (norm u) (norm v)). reflexivity.
Qed.

(** X4: between two nonzero vectors of one dimension the cosine distance is
    a number from 0 to 2. *)
Theorem cosine_range (u v : Vector) :
  nonzero u -> nonzero v -> length u = length v ->
  exists d : R, cosine u v = Ok (Num d) /\ (0 <= d <= 2)%R.
Proof.
  intros Hu Hv Hlen. unfold cosine. rewrite Hlen, Nat.eqb_refl.
  unfold cosine_distance.
  pose proof (norm_pos u Hu) as Hnu. pose proof (norm_pos v Hv) as Hnv.
  assert (Hn : (0 < norm u * norm v)%R) by nra.
  destruct (Req_dec_T (norm u * norm v) 0) as [E|_]; [lra|].
  eexists. split; [reflexivity|].
  pose proof (dot_le_norms u v) as Hle. pose proof (dot_ge_norms u v) as Hge.
  set (n := (norm u * norm v)%R) in *.
  assert (Hq : (dot u v / n * n = dot u v)%R) by (field; lra).
  split; nra.
Qed.

Lemma cosine_range_witness :
  exists d : R, cosine [3; 4]%R [1; 0]%R = Ok (Num d) /\ (0 <= d <= 2)%R.
Proof.
  apply (cosine_range [3; 4]%R [1; 0]%R).
  - left. lra.
  - left. lra.
  - reflexivity.
Defined.

(** ** More on the ranker *)

Lemma distances_from_embeddings_mismatch (q : Vector) (es : list Vector) :
  Exists (fun e => length e <> length q) es ->
  distances_from_embeddings q es = Raise ValueError.
Proof.
  induction 1 as [e es He | e es _ IH]; cbn [distances_from_embeddings];
    unfold cosine.
  - apply not_eq_sym, Nat.eqb_neq in He. now rewrite He.
  - destruct (Nat.eqb (length q) (length e)); [|reflexivity]. now rewrite IH.
Qed.

Lemma frame_rows_head (n : Z) (d : DataFrame) :
  0 <= n -> frame_rows (head n d) = firstn (Z.to_nat n) (frame_rows d).
Proof.
  intros Hn. apply Z.leb_le in Hn.
  destruct d as [rows|rows]; cbn [head frame_rows]; unfold slice_to;
    rewrite Hn; [reflexivity|]. symmetry. apply firstn_map.
Qed.

Lemma fresh_lookup_None (m : gmap loc DataFrame) : m !! fresh (dom m) = None.
Proof. apply not_elem_of_dom, is_fresh. Qed.

Lemma texts_head_incl (n : Z) (d : DataFrame) :
  incl (texts (head n d)) (texts d).
Proof.
  assert (Hslice : forall (A : Type) (l : list A), incl (slice_to n l) l).
  { intros A l a Ha. unfold slice_to in Ha.
    destruct (0 <=? n);
      [rewrite <- (firstn_skipn (Z.to_nat n) l)
      |rewrite <- (firstn_skipn (length l - Z.to_nat (- n)) l)];
      apply in_or_app; now left. }
  unfold texts. intros t Ht. apply in_map_iff in Ht.
  destruct Ht as (r & <- & Hr). apply in_map.
  destruct d as [rows|rows]; cbn [head frame_rows] in *.
  - now apply Hslice.
  - apply in_map_iff in Hr. destruct Hr as (a & <- & Ha).
    apply in_map. now apply Hslice.
Qed.

Lemma texts_nsmallest_incl
    (sort_values : list (Row * dist) -> list (Row * dist)) (n : Z)
    (q : Vector) (rows : list Row) :
  ascending_sort sort_values ->
  incl (texts (Scored (nsmallest sort_values n (scored q rows))))
       (map text rows).
Proof.
  intros Hsort t Ht. unfold texts in Ht. cbn [frame_rows] in Ht.
  apply in_map_iff in Ht. destruct Ht as (r & <- & Hr).
  apply in_map_iff in Hr. destruct Hr as (a & <- & Ha).
  apply (nsmallest_incl _ _ _ Hsort) in Ha. unfold scored in Ha.
  apply in_map_iff in Ha. destruct Ha as (r & <- & Hr).
  cbn [fst]. now apply in_map.
Qed.

Section MoreRankerProperties.
Variable sort_values : list (Row * dist) -> list (Row * dist).
Variable Embedding_create : string -> Result EmbeddingResponse.


(** X6: when the response has no ['data'], or an empty one, and [top_n] is
    not negative, [get_relevant_rows] prints one warning and returns a new
    frame with the first [top_n] rows of the input in corpus order, the
    columns being those of the input. *)
Theorem get_relevant_rows_fallback_head (question : string) (df : loc)
    (top_n : Z) (σ : State) (response : EmbeddingResponse) (d : DataFrame) :
  Embedding_create question = Ok response ->
  has_data response = false ->
  heap σ !! df = Some d ->
  0 <= top_n ->
  exists (l : loc) (σ' : State),
    get_relevant_rows sort_values Embedding_create question df top_n σ
      = (Ok l, σ') /\
    heap σ !! l = None /\
    heap σ' !! l = Some (head top_n d) /\
    frame_rows (head top_n d) = firstn (Z.to_nat top_n) (frame_rows d) /\
    stdout σ' = stdout σ ++ [WarnNoData].
Proof.
  intros Hc Hno Hd Hn.
  rewrite (get_relevant_rows_fallback _ _ _ _ _ _ _ _ Hc Hno Hd).
  eexists _, _. split; [reflexivity|]. cbn [heap stdout].
  split; [apply fresh_lookup_None|].
  split; [apply lookup_insert_eq|].
  split; [now apply frame_rows_head | reflexivity].
Qed.

(** X7: a response whose ['data'] is not empty and whose first item has no
    ['embedding'] makes [get_relevant_rows] raise [KeyError]: there is no
    fallback, the state is as before the call. *)
Theorem get_relevant_rows_key_error (question : string) (df : loc)
    (top_n : Z) (σ : State) (items : list (option Vector)) :
  Embedding_create question = Ok {| data := Some (None :: items) |} ->
  get_relevant_rows sort_values Embedding_create question df top_n σ
    = (Raise KeyError, σ).
Proof.
  intros Hc.
  now apply (get_relevant_rows_item_without_embedding _ _ _ _ _ _
               {| data := Some (None :: items) |}).
Qed.

(** X8: a row whose embedding has another dimension than the question's
    makes [get_relevant_rows] raise [ValueError]; nothing is printed and
    the input frame is as before. *)
Theorem get_relevant_rows_dimension_mismatch (question : string) (df : loc)
    (top_n : Z) (σ : State) (response : EmbeddingResponse) (q : Vector)
    (d : DataFrame) :
  Embedding_create question = Ok response ->
  first_embedding response = Ok q ->
  heap σ !! df = Some d ->
  Exists (fun r => length (embeddings r) <> length q) (frame_rows d) ->
  exists σ' : State,
    get_relevant_rows sort_values Embedding_create question df top_n σ
      = (Raise ValueError, σ') /\
    stdout σ' = stdout σ /\
    heap σ' !! df = Some d.
Proof.
  intros Hc Hq Hd Hdim. unfold get_relevant_rows. run_monad.
  rewrite Hc, (first_embedding_has_data _ _ Hq), Hq, Hd. cbn [heap stdout].
  rewrite lookup_insert_eq.
  rewrite distances_from_embeddings_mismatch
    by (apply Exists_map; exact Hdim).
  eexists. split; [reflexivity|]. cbn [heap stdout]. split; [reflexivity|].
  frame_lookup Hd.
Qed.


(** X10: with [top_n] zero or negative, the success path returns a frame
    with no row. *)
Theorem get_relevant_rows_none (question : string) (df : loc) (top_n : Z)
    (σ : State) (response : EmbeddingResponse) (q : Vector) (d : DataFrame) :
  Embedding_create question = Ok response ->
  first_embedding response = Ok q ->
  heap σ !! df = Some d ->
  Forall (fun r => length (embeddings r) = length q) (frame_rows d) ->
  top_n <= 0 ->
  exists (l : loc) (σ' : State),
    get_relevant_rows sort_values Embedding_create question df top_n σ
      = (Ok l, σ') /\
    heap σ' !! l = Some (Scored []).
Proof.
  intros Hc Hq Hd Hdim Hn.
  rewrite (get_relevant_rows_ranked_run _ _ _ _ _ _ _ _ _ Hc Hq Hd Hdim).
  eexists _, _. split; [reflexivity|]. cbn [heap].
  rewrite lookup_insert_eq. unfold nsmallest.
  destruct (Z.leb_spec top_n 0); [reflexivity | lia].
Qed.
End MoreRankerProperties.

(** ** More on the prompt composer *)

Lemma join_In (sep t : string) (l : list string) :
  In t l -> exists a b, join sep l = a +:+ t +:+ b.
Proof.
  induction l as [|x l IH]; intros Hin; [destruct Hin|].
  destruct Hin as [-> | Hin].
  - destruct l as [|y l].
    + exists EmptyString, EmptyString. cbn [join].
      change (t = t +:+ EmptyString). induction t as [|c t IHt]; [reflexivity|].
      change (String c t = String c (t +:+ EmptyString)). now rewrite <- IHt.
    + exists EmptyString, (sep +:+ join sep (y :: l)). reflexivity.
  - destruct (IH Hin) as (a & b & Hab). destruct l as [|y l]; [destruct Hin|].
    exists (x +:+ sep +:+ a), b. cbn [join]. cbn [join] in Hab. rewrite Hab.
    now rewrite !append_assoc.
Qed.

Section MorePromptProperties.
Variable encode : string -> list nat.

Lemma pack_context_mono (max1 max2 : Z) (values : list string) :
  max1 <= max2 ->
  forall current context,
    pack_context encode current max2 values = Ok context ->
    exists k : nat,
      pack_context encode current max1 values = Ok (firstn k context).
Proof.
  intros Hle. induction values as [|t values IH]; intros current context.
  - intros [= <-]. exists 0%nat. reflexivity.
  - cbn [pack_context].
    destruct (encoded_length encode t) as [n|e]; [|discriminate].
    cbn [mbind Result_bind].
    destruct (Z.leb_spec (current + n) max1) as [H1|H1].
    + destruct (Z.leb_spec (current + n) max2) as [H2|H2]; [|lia].
      destruct (pack_context encode (current + n) max2 values)
        as [rest|e] eqn:Hrest; [|discriminate].
      intros [= <-]. destruct (IH _ _ Hrest) as (k & ->).
      exists (S k). reflexivity.
    + intros _. exists 0%nat. now rewrite firstn_O.
Qed.

Lemma pack_context_all (max_token_count : Z) (values : list string) :
  Forall (fun text => disallowed text = false) values ->
  forall current,
    current + total_tokens encode values <= max_token_count ->
    pack_context encode current max_token_count values = Ok values.
Proof.
  induction 1 as [|t values Ht _ IH]; intros current Hfit; [reflexivity|].
  cbn [pack_context]. rewrite (encoded_length_ok encode t Ht).
  cbn [mbind Result_bind]. cbn [total_tokens fold_right] in Hfit.
  fold (total_tokens encode values) in Hfit.
  pose proof (total_tokens_nonneg encode values).
  destruct (Z.leb_spec (current + token_count encode t) max_token_count);
    [|lia].
  rewrite IH by lia. reflexivity.
Qed.

(** X11: a larger budget never removes a passage: when [create_prompt]
    returns under a budget, it returns under every smaller one, with a
    context that is a head of the context under the larger one. *)
Theorem create_prompt_budget_mono (question : string) (df : DataFrame)
    (max1 max2 : Z) (prompt2 : string) :
  max1 <= max2 ->
  create_prompt encode question df max2 = Ok prompt2 ->
  exists (k : nat) (context : list string),
    prompt2 = format_prompt (join context_sep context) question /\
    create_prompt encode question df max1 =
      Ok (format_prompt (join context_sep (firstn k context)) question).
Proof.
  intros Hle H2.
  destruct (create_prompt_inv _ _ _ _ _ H2) as (context & Hc & ->).
  apply context_of_inv in Hc. destruct Hc as [Hq Hc].
  destruct (pack_context_mono max1 max2 (texts df) Hle _ _ Hc) as (k & Hk).
  exists k, context. split; [reflexivity|].
  unfold create_prompt. rewrite (context_of_allowed encode _ _ _ Hq), Hk.
  reflexivity.
Qed.

(** X12: when neither the question nor a text of the frame spells a
    special token, and the template, the question and all the texts are
    within the budget, [create_prompt] returns the prompt with every text
    in the context, in the order of the frame. *)
Theorem create_prompt_all_fit (question : string) (df : DataFrame)
    (max_token_count : Z) :
  disallowed question = false ->
  Forall (fun text => disallowed text = false) (texts df) ->
  base_token_count encode question + total_tokens encode (texts df)
    <= max_token_count ->
  create_prompt encode question df max_token_count =
    Ok (format_prompt (join context_sep (texts df)) question).
Proof.
  intros Hq Htexts Hfit. unfold create_prompt.
  rewrite (context_of_allowed encode _ _ _ Hq).
  now rewrite (pack_context_all _ _ Htexts _ Hfit).
Qed.

(** X13: every text that the loop puts in the context stands in the
    prompt that [create_prompt] returns as it is. *)
Theorem create_prompt_contains_context (question : string) (df : DataFrame)
    (max_token_count : Z) (context : list string) (passage : string) :
  context_of encode question df max_token_count = Ok context ->
  In passage context ->
  exists prompt,
    create_prompt encode question df max_token_count = Ok prompt /\
    contains passage prompt = true.
Proof.
  intros Hcontext Hin. unfold create_prompt. rewrite Hcontext.
  eexists. split; [reflexivity|]. unfold format_prompt.
  destruct (join_In context_sep passage _ Hin) as (a & b & ->).
  rewrite (append_assoc a), (append_assoc passage).
  rewrite <- (append_assoc template_head a).
  apply contains_app.
Qed.
End MorePromptProperties.

Lemma create_prompt_budget_mono_witness :
  exists (k : nat) (context : list string),
    format_prompt (join context_sep (texts passages_example)) "q" =
      format_prompt (join context_sep context) "q" /\
    create_prompt byte_encode "q" passages_example 210 =
      Ok (format_prompt (join context_sep (firstn k context)) "q").
Proof.
  apply (create_prompt_budget_mono byte_encode "q" passages_example 210 250).
  - lia.
  - vm_compute. reflexivity.
Defined.

Lemma create_prompt_all_fit_witness :
  create_prompt byte_encode "q" passages_example 250 =
    Ok (format_prompt (join context_sep (texts passages_example)) "q").
Proof.
  apply (create_prompt_all_fit byte_encode "q" passages_example 250).
  - reflexivity.
  - repeat (apply List.Forall_cons; [reflexivity|]). apply List.Forall_nil.
  - vm_compute. discriminate.
Defined.

Lemma create_prompt_contains_context_witness :
  exists prompt,
    create_prompt byte_encode "q" passages_example 250 = Ok prompt /\
    contains "January 1 – A" prompt = true.
Proof.
  apply (create_prompt_contains_context byte_encode "q" passages_example 250
           (texts passages_example) "January 1 – A").
  - vm_compute. reflexivity.
  - vm_compute. auto.
Defined.

(** ** More on the completion, the answer and the loop *)

Section MorePipelineProperties.
Variable encode : string -> list nat.
Variable sort_values : list (Row * dist) -> list (Row * dist).
Variable Embedding_create : string -> Result EmbeddingResponse.
Variable Completion_create : string -> Z -> Result CompletionResponse.

Lemma answer_question_with_context_keeps (question : string) (df : loc)
    (max_prompt_tokens max_answer_tokens top_n : Z) (σ : State) (l : loc)
    (d : DataFrame) :
  heap σ !! l = Some d ->
  heap (snd (answer_question_with_context encode sort_values Embedding_create
               Completion_create question df max_prompt_tokens
               max_answer_tokens top_n σ)) !! l = Some d.
Proof.
  intros Hl.
  pose proof (get_relevant_rows_keeps sort_values Embedding_create question
                df top_n σ l d Hl) as Hkeep.
  unfold answer_question_with_context. run_monad.
  destruct (get_relevant_rows sort_values Embedding_create question df top_n σ)
    as [[rows|e] σ1]; cbn [snd] in *; [|exact Hkeep].
  destruct (heap σ1 !! rows) as [d1|]; cbn [snd]; [|exact Hkeep].
  destruct (create_prompt encode question d1 max_prompt_tokens)
    as [prompt|e]; cbn [snd]; [|exact Hkeep].
  destruct (get_openai_answer_returns Completion_create prompt
              max_answer_tokens σ1) as (answer & σ2 & -> & Hheap & _).
  cbn [snd]. now rewrite Hheap.
Qed.

(** X14: [get_openai_answer] always returns a string and leaves the heap
    as it is. It prints nothing when it returns the stripped text of the
    first choice; otherwise it prints one line and returns one of its two
    fixed answers. *)
Theorem get_openai_answer_cases (prompt : string) (max_answer_tokens : Z)
    (σ : State) :
  exists (answer : string) (σ' : State),
    get_openai_answer Completion_create prompt max_answer_tokens σ
      = (Ok answer, σ') /\
    heap σ' = heap σ /\
    ((exists r t rest,
        Completion_create prompt max_answer_tokens = Ok r /\
        choices r = Some (Some t :: rest) /\
        answer = strip t /\ stdout σ' = stdout σ)
     \/ (exists ev,
          stdout σ' = stdout σ ++ [ev] /\
          (answer = "An error occurred."
           \/ answer = "No answer found in response."))).
Proof.
  unfold get_openai_answer, try_except. run_monad.
  destruct (Completion_create prompt max_answer_tokens) as [r|e].
  - unfold has_choices, first_text.
    destruct r as [[[|[t|] rest]|]]; cbn [choices]; eexists _, _;
      (split; [reflexivity|]); (split; [reflexivity|]); cbn [stdout].
    + right. eexists. split; [reflexivity|]. now right.
    + left. exists {| choices := Some (Some t :: rest) |}, t, rest. auto.
    + right. eexists. split; [reflexivity|]. now left.
    + right. eexists. split; [reflexivity|]. now right.
  - eexists _, _. split; [reflexivity|]. split; [reflexivity|].
    right. eexists. split; [reflexivity|]. now left.
Qed.

(** X15: answering a question leaves every frame that was there before as
    it is, whether the answer is returned or an exception is raised. *)
Theorem answer_question_with_context_frame (question : string) (df : loc)
    (max_prompt_tokens max_answer_tokens top_n : Z) (σ : State) (l : loc)
    (d : DataFrame) :
  heap σ !! l = Some d ->
  heap (snd (answer_question_with_context encode sort_values Embedding_create
               Completion_create question df max_prompt_tokens
               max_answer_tokens top_n σ)) !! l = Some d.
Proof. apply answer_question_with_context_keeps. Qed.

(** X16: [answer_question_with_context] raises exactly when
    [get_relevant_rows] raises, or when [create_prompt] raises on the frame
    that [get_relevant_rows] returns, with the same exception and state:
    the completion call never makes it raise. *)
Theorem answer_question_with_context_raises (question : string) (df : loc)
    (max_prompt_tokens max_answer_tokens top_n : Z) (σ σ' : State) (e : Exn) :
  answer_question_with_context encode sort_values Embedding_create
    Completion_create question df max_prompt_tokens max_answer_tokens
    top_n σ = (Raise e, σ')
  <-> (get_relevant_rows sort_values Embedding_create question df top_n σ
         = (Raise e, σ')
       \/ exists (l : loc) (d : DataFrame),
            get_relevant_rows sort_values Embedding_create question df
              top_n σ = (Ok l, σ') /\
            heap σ' !! l = Some d /\
            create_prompt encode question d max_prompt_tokens = Raise e).
Proof.
  unfold answer_question_with_context. run_monad.
  destruct (get_relevant_rows sort_values Embedding_create question df top_n σ)
    as [[rows|e1] σ1] eqn:Hrows.
  - destruct (get_relevant_rows_allocated _ _ _ _ _ _ _ _ Hrows) as [d1 Hd1].
    rewrite Hd1.
    destruct (create_prompt encode question d1 max_prompt_tokens)
      as [prompt|e1] eqn:Hprompt.
    + destruct (get_openai_answer_returns Completion_create prompt
                  max_answer_tokens σ1) as (answer & σ2 & -> & _).
      split; [discriminate|].
      intros [H | (l & d & [= <- <-] & Hd & He)]; [discriminate|].
      congruence.
    + split.
      * intros [= -> ->]. right. exists rows, d1. auto.
      * intros [H | (l & d & [= <- <-] & Hd & He)]; [discriminate|].
        congruence.
  - split.
    + intros [= -> ->]. now left.
    + intros [[= -> ->] | (l & d & H & _)]; [reflexivity | discriminate].
Qed.

End MorePipelineProperties.

Section LoopProperties.
Variable encode : string -> list nat.
Variable sort_values : list (Row * dist) -> list (Row * dist).
Variable Embedding_create : string -> Result EmbeddingResponse.
Variable Completion_create : string -> Z -> Result CompletionResponse.

Lemma get_relevant_rows_answerable (question : string) (df : loc) (top_n : Z)
    (σ : State) (d : DataFrame) :
  ascending_sort sort_values ->
  heap σ !! df = Some d ->
  answerable Embedding_create (frame_rows d) question ->
  exists (l : loc) (σ1 : State) (d1 : DataFrame),
    get_relevant_rows sort_values Embedding_create question df top_n σ
      = (Ok l, σ1) /\
    heap σ1 !! l = Some d1 /\
    incl (texts d1) (texts d).
Proof.
  intros Hsort Hd Hq. unfold answerable in Hq.
  destruct (Embedding_create question) as [response|e] eqn:Hc; [|destruct Hq].
  destruct Hq as [Hno | (q & Hq & Hdim)].
  - rewrite (get_relevant_rows_fallback _ _ _ _ _ _ _ _ Hc Hno Hd).
    eexists _, _, _. split; [reflexivity|]. cbn [heap].
    split; [apply lookup_insert_eq | apply texts_head_incl].
  - rewrite (get_relevant_rows_ranked_run _ _ _ _ _ _ _ _ _ Hc Hq Hd Hdim).
    eexists _, _, _. split; [reflexivity|]. cbn [heap].
    split; [apply lookup_insert_eq | now apply texts_nsmallest_incl].
Qed.

Lemma interactive_loop_step (user_input : string) (rest : list string)
    (data : loc) (σ : State) (d : DataFrame) :
  ascending_sort sort_values ->
  Forall (fun text => disallowed text = false) (texts d) ->
  lower user_input <> "exit" ->
  heap σ !! data = Some d ->
  disallowed user_input = false ->
  answerable Embedding_create (frame_rows d) user_input ->
  exists σ3 : State,
    interactive_loop encode sort_values Embedding_create Completion_create
      (user_input :: rest) data σ =
    interactive_loop encode sort_values Embedding_create Completion_create
      rest data σ3
    /\ heap σ3 !! data = Some d.
Proof.
  intros Hsort Htexts Hexit Hd Hallowed Hq. cbn [interactive_loop].
  apply String.eqb_neq in Hexit. run_monad. rewrite Hexit. cbn [heap stdout].
  set (σ1 := {| heap := heap σ;
                stdout := (stdout σ
                           ++ [Prompted "Ask a question (or type 'exit' to quit): "])
                           ++ [Printed ("You asked: " +:+ user_input)] |}).
  assert (Hd1 : heap σ1 !! data = Some d) by exact Hd.
  destruct (get_relevant_rows_answerable user_input data 10 σ1 d Hsort Hd1 Hq)
    as (l & σ2 & d2 & Hrows & Hd2 & Hincl).
  assert (Htexts2 : Forall (fun text => disallowed text = false) (texts d2)).
  { apply List.Forall_forall. intros t Ht.
    rewrite List.Forall_forall in Htexts. apply Htexts, Hincl, Ht. }
  destruct (create_prompt_question_only_returns encode user_input d2 1500
              Hallowed Htexts2) as (prompt & Hprompt).
  destruct (answer_question_with_context_returns encode sort_values
              Embedding_create Completion_create user_input data 1500 150 10
              σ1 σ2 l d2 prompt Hrows Hd2 Hprompt)
    as (answer & σ' & Hanswer & _).
  pose proof (answer_question_with_context_keeps encode sort_values
                Embedding_create Completion_create user_input data 1500 150
                10 σ1 data d Hd1) as Hkeep.
  rewrite Hanswer in *. cbn [snd] in Hkeep. cbn [heap stdout].
  eexists. split; [reflexivity|]. exact Hkeep.
Qed.

(** X18: the loop ends without an exception only at an input that reads
    [exit] in some case: the inputs before it do not, and the end of the
    input raises. *)
Theorem interactive_loop_ok_exit (inputs : list string) (data : loc) :
  forall σ σ' : State,
    interactive_loop encode sort_values Embedding_create Completion_create
      inputs data σ = (Ok tt, σ') ->
    exists before x rest,
      inputs = before ++ x :: rest /\ lower x = "exit" /\
      Forall (fun y => lower y <> "exit") before.
Proof.
  induction inputs as [|u inputs IH]; intros σ σ'; cbn [interactive_loop];
    run_monad; [discriminate|].
  destruct (String.eqb (lower u) "exit") eqn:Hu.
  - intros _. apply String.eqb_eq in Hu. exists [], u, inputs. auto.
  - apply String.eqb_neq in Hu. cbn [heap stdout].
    destruct (answer_question_with_context _ _ _ _ _ _ _ _ _ _)
      as [[answer|e] σ2]; [|discriminate].
    intros Hloop. apply IH in Hloop.
    destruct Hloop as (before & x & rest & -> & Hx & Hbefore).
    exists (u :: before), x, rest. auto.
Qed.

(** X19: when [sort_values] is an ascending sort, no text of the data
    frame spells a special token of the tokenizer, and every question
    before the [exit] line spells none and is one that the ranker can
    take, the loop answers them all and ends without an exception, the
    data frame being as it was; what comes after [exit] is not read. *)
Theorem interactive_loop_completes (questions ignored : list string)
    (stop : string) (data : loc) (d : DataFrame) :
  ascending_sort sort_values ->
  Forall (fun text => disallowed text = false) (texts d) ->
  lower stop = "exit" ->
  Forall (fun x => lower x <> "exit"
                   /\ disallowed x = false
                   /\ answerable Embedding_create (frame_rows d) x)
    questions ->
  forall σ : State,
    heap σ !! data = Some d ->
    exists σ' : State,
      interactive_loop encode sort_values Embedding_create Completion_create
        (questions ++ stop :: ignored) data σ = (Ok tt, σ') /\
      heap σ' !! data = Some d.
Proof.
  intros Hsort Htexts Hstop.
  induction 1 as [|u questions (Hu & Hallowed & Hq) _ IH]; intros σ Hd.
  - cbn [app interactive_loop]. run_monad.
    apply String.eqb_eq in Hstop. rewrite Hstop.
    eexists. split; [reflexivity | exact Hd].
  - cbn [app].
    destruct (interactive_loop_step u (questions ++ stop :: ignored) data σ d
                Hsort Htexts Hu Hd Hallowed Hq) as (σ3 & -> & Hd3).
    now apply IH.
Qed.

(** X20: the loop leaves every frame that was there before it as it is,
    however it ends. *)
Theorem interactive_loop_frame (inputs : list string) (data : loc) (l : loc)
    (d : DataFrame) :
  forall σ : State,
    heap σ !! l = Some d ->
    heap (snd (interactive_loop encode sort_values Embedding_create
                 Completion_create inputs data σ)) !! l = Some d.
Proof.
  induction inputs as [|u inputs IH]; intros σ Hl; cbn [interactive_loop];
    run_monad; [exact Hl|].
  destruct (String.eqb (lower u) "exit"); [exact Hl|]. cbn [heap stdout].
  set (σ1 := {| heap := heap σ;
                stdout := (stdout σ
                           ++ [Prompted "Ask a question (or type 'exit' to quit): "])
                           ++ [Printed ("You asked: " +:+ u)] |}).
  pose proof (answer_question_with_context_keeps encode sort_values
                Embedding_create Completion_create u data 1500 150 10 σ1 l d
                Hl) as Hkeep.
  destruct (answer_question_with_context _ _ _ _ _ _ _ _ _ _)
    as [[answer|e] σ2]; cbn [snd] in *; [|exact Hkeep].
  apply IH. exact Hkeep.
Qed.
End LoopProperties.

(** ** Embedding generation and the basic answer *)

Lemma combine_map_r {A B : Type} (f : A -> B) (l : list A) :
  combine l (map f l) = map (fun x => (x, f x)) l.
Proof. induction l as [|x l IH]; [reflexivity|]. cbn. now rewrite IH. Qed.

Ltac run_out :=
  unfold get_embedding_for_text, item_embedding, choice_text, from_result,
    catch, say, throw, mbind, Out_bind, mret, Out_ret.

Section EmbeddingProperties.
Variable Embedding_create : string -> Result EmbeddingResponse.
Variable Completion_create : string -> Z -> Result CompletionResponse.
Variable str : PyExn -> string.

Lemma embeddings_of_run (rows : list (nat * string)) :
  exists log : list Event,
    embeddings_of Embedding_create str rows =
      (inr (map (fun row => embedding_for Embedding_create (snd row)) rows),
       log) /\
    length log =
      (length rows
       + length (List.filter (lacks_embedding Embedding_create) rows))%nat.
Proof.
  induction rows as [|[i text] rows IH].
  - exists []. split; reflexivity.
  - destruct IH as (log & Hrun & Hlen).
    cbn [embeddings_of map List.filter snd].
    unfold lacks_embedding at 1. cbn [snd].
    remember (embedding_for Embedding_create text) as o eqn:Ho.
    unfold embedding_for in Ho. run_out. rewrite Hrun.
    destruct (Embedding_create text) as [[[[|[e|] items]|]]|ex];
      cbn [data] in *; subst o; eexists; (split; [reflexivity|]);
      cbn [length app]; rewrite ?length_app; cbn [length]; lia.
Qed.

(** X21: [generate_embeddings] never raises, and returns the rows of the
    frame in their order, each with its index label and text as they were
    and with the embedding of its own text: the first embedding of the
    provider's response, or [None] when the call raises, the response has
    no ['data'], or its first item is missing or has no ['embedding']. A
    failure at one row changes nothing for the other rows. *)
Theorem generate_embeddings_rows (df : list (nat * string)) :
  fst (generate_embeddings Embedding_create str df) =
    inr (map (fun row => (row, embedding_for Embedding_create (snd row))) df).
Proof.
  unfold generate_embeddings.
  destruct (embeddings_of_run df) as (log & Hrun & _).
  run_out. rewrite Hrun. cbn [fst]. now rewrite combine_map_r.
Qed.

(** X22: [generate_embeddings] prints one line for every row, and one
    more line for every row that gets no embedding. *)
Theorem generate_embeddings_log (df : list (nat * string)) :
  length (snd (generate_embeddings Embedding_create str df)) =
    (length df
     + length (List.filter (lacks_embedding Embedding_create) df))%nat.
Proof.
  unfold generate_embeddings.
  destruct (embeddings_of_run df) as (log & Hrun & Hlen).
  run_out. rewrite Hrun. cbn [snd]. now rewrite app_nil_r.
Qed.

(** X23: [answer_basic_question] never raises. It returns the stripped
    text of the first choice and prints nothing when there is one, and the
    answer [An error occurred.] with one printed line otherwise. With a
    response that has no choice, [get_openai_answer] returns [No answer
    found in response.] instead; in every other case the two functions
    return the same string. *)
Theorem answer_basic_question_cases (question : string)
    (max_answer_tokens : Z) (σ : State) :
  exists (basic with_check : string) (log : list Event),
    answer_basic_question Completion_create str question max_answer_tokens
      = (inr basic, log) /\
    fst (get_openai_answer Completion_create question max_answer_tokens σ)
      = Ok with_check /\
    match Completion_create question max_answer_tokens with
    | Ok {| choices := Some (Some t :: _) |} =>
        basic = strip t /\ with_check = strip t /\ log = []
    | Ok {| choices := Some (None :: _) |} =>
        basic = "An error occurred." /\ with_check = "An error occurred."
        /\ length log = 1%nat
    | Ok _ =>
        basic = "An error occurred."
        /\ with_check = "No answer found in response."
        /\ length log = 1%nat
    | Raise _ =>
        basic = "An error occurred." /\ with_check = "An error occurred."
        /\ length log = 1%nat
    end.
Proof.
  unfold answer_basic_question, get_openai_answer, try_except.
  run_out. run_monad. unfold has_choices, first_text.
  destruct (Completion_create question max_answer_tokens)
    as [[[[|[t|] rest]|]]|ex]; cbn [choices fst];
    eexists _, _, _; (split; [reflexivity|]); (split; [reflexivity|]);
    repeat split.
Qed.
End EmbeddingProperties.

(** ** The API key *)

Lemma concat_strings_chars (s : string) : concat_strings (chars s) = s.
Proof.
  induction s as [|a s IH]; [reflexivity|]. cbn [chars].
  destruct (chars s) as [|[|b ch] rest]; cbn [concat_strings fold_right] in *.
  - now rewrite <- IH.
  - now rewrite <- IH.
  - destruct (is_continuation b); cbn [concat_strings fold_right];
      now rewrite <- IH.
Qed.

Lemma last4_short (key : string) :
  (char_length key <= 4)%nat -> last4 key = key.
Proof.
  intros H. unfold last4. replace (char_length key - 4)%nat with 0%nat by lia.
  apply concat_strings_chars.
Qed.

(** X24: when [get_openai_api_key] returns, the key is the stripped form
    of an input line and is not empty; every line before that one was
    blank and got the line [API key cannot be empty!]; the last printed
    line shows the last four characters of the key behind four stars. *)
Theorem get_openai_api_key_returns (typed : list string) :
  forall (key : string) (log : list Event),
    get_openai_api_key typed = (inr key, log) ->
    exists blanks line rest,
      typed = blanks ++ line :: rest /\
      Forall (fun b => strip b = EmptyString) blanks /\
      key = strip line /\ key <> EmptyString /\
      log = map (fun _ => Printed "API key cannot be empty!") blanks
            ++ [Printed ("API key configured (last 4 chars): ****"
                         +:+ last4 key)].
Proof.
  induction typed as [|line typed IH]; intros key log;
    cbn [get_openai_api_key]; [discriminate|].
  destruct (String.eqb (strip line) EmptyString) eqn:Hblank.
  - apply String.eqb_eq in Hblank. unfold say, mbind, Out_bind.
    destruct (get_openai_api_key typed) as [[e|key'] log'] eqn:Hrest;
      [discriminate|].
    intros [= <- <-].
    destruct (IH key' log' eq_refl)
      as (blanks & line' & rest & -> & Hblanks & Hkey & Hne & Hlog).
    exists (line :: blanks), line', rest. repeat split; auto.
    cbn [map app]. now rewrite Hlog.
  - apply String.eqb_neq in Hblank. unfold say, mbind, Out_bind, mret, Out_ret.
    intros [= <- <-]. exists [], line, typed. repeat split; auto.
Qed.

(** X25: a key of at most four characters is printed whole in the
    confirmation line; a longer key is printed as its last four
    characters, whatever the number of their bytes. *)
Theorem get_openai_api_key_echo (line : string) (rest : list string) :
  strip line <> EmptyString ->
  exists shown : string,
    get_openai_api_key (line :: rest) =
      (inr (strip line),
       [Printed ("API key configured (last 4 chars): ****" +:+ shown)]) /\
    ((char_length (strip line) <= 4)%nat -> shown = strip line) /\
    ((4 < char_length (strip line))%nat ->
     exists front back : list string,
       chars (strip line) = front ++ back /\ length back = 4%nat /\
       shown = concat_strings back).
Proof.
  intros Hne. apply String.eqb_neq in Hne. cbn [get_openai_api_key].
  rewrite Hne. unfold say, mbind, Out_bind, mret, Out_ret.
  exists (last4 (strip line)). split; [reflexivity|]. split.
  - apply last4_short.
  - intros Hlong.
    exists (firstn (char_length (strip line) - 4) (chars (strip line))),
           (skipn (char_length (strip line) - 4) (chars (strip line))).
    split; [now rewrite firstn_skipn|]. split; [|reflexivity].
    rewrite length_skipn. unfold char_length in *. lia.
Qed.

Lemma get_openai_api_key_returns_witness :
  exists blanks line rest,
    ["  "; " sk-abc123 "; "other"] = blanks ++ line :: rest /\
    Forall (fun b => strip b = EmptyString) blanks /\
    "sk-abc123" = strip line /\ "sk-abc123" <> EmptyString /\
    [Printed "API key cannot be empty!";
     Printed "API key configured (last 4 chars): ****c123"] =
      map (fun _ => Printed "API key cannot be empty!") blanks
      ++ [Printed ("API key configured (last 4 chars): ****"
                   +:+ last4 "sk-abc123")].
Proof.
  apply (get_openai_api_key_returns ["  "; " sk-abc123 "; "other"]
           "sk-abc123"
           [Printed "API key cannot be empty!";
            Printed "API key configured (last 4 chars): ****c123"]).
  reflexivity.
Defined.

Lemma get_openai_api_key_echo_witness :
  exists shown : string,
    get_openai_api_key [" sk-abcé "] =
      (inr (strip " sk-abcé "),
       [Printed ("API key configured (last 4 chars): ****" +:+ shown)]) /\
    ((char_length (strip " sk-abcé ") <= 4)%nat ->
     shown = strip " sk-abcé ") /\
    ((4 < char_length (strip " sk-abcé "))%nat ->
     exists front back : list string,
       chars (strip " sk-abcé ") = front ++ back /\ length back = 4%nat /\
       shown = concat_strings back).
Proof.
  apply (get_openai_api_key_echo " sk-abcé " []). vm_compute. discriminate.
Defined.

(** The white space of [strip] is that of Unicode, and [key[-4:]] counts
    characters: a key between two no-break spaces, with a last character
    of two bytes. *)
Example get_openai_api_key_example :
  get_openai_api_key [no_break_space +:+ "sk-abcé" +:+ no_break_space] =
    (inr "sk-abcé",
     [Printed "API key configured (last 4 chars): ****abcé"]).
Proof. vm_compute. reflexivity. Qed.

(** ** Instances *)


Lemma get_relevant_rows_fallback_head_witness :
  exists (l : loc) (σ' : State),
    get_relevant_rows sort_by_distance embedding_no_data "q" 0%nat 1
      state_example = (Ok l, σ') /\
    heap state_example !! l = None /\
    heap σ' !! l = Some (head 1 passages_example) /\
    frame_rows (head 1 passages_example)
      = firstn (Z.to_nat 1) (frame_rows passages_example) /\
    stdout σ' = stdout state_example ++ [WarnNoData].
Proof.
  apply (get_relevant_rows_fallback_head sort_by_distance embedding_no_data
           "q" 0%nat 1 state_example {| data := None |} passages_example).
  - reflexivity.
  - reflexivity.
  - apply lookup_singleton_eq.
  - lia.
Defined.

Lemma get_relevant_rows_key_error_witness :
  get_relevant_rows sort_by_distance embedding_no_item "q" 0%nat 10
    state_example = (Raise KeyError, state_example).
Proof.
  apply (get_relevant_rows_key_error sort_by_distance embedding_no_item "q"
           0%nat 10 state_example []).
  reflexivity.
Defined.

Lemma get_relevant_rows_dimension_mismatch_witness :
  exists σ' : State,
    get_relevant_rows sort_by_distance embedding_short "q" 0%nat 10
      state_example = (Raise ValueError, σ') /\
    stdout σ' = stdout state_example /\
    heap σ' !! 0%nat = Some passages_example.
Proof.
  apply (get_relevant_rows_dimension_mismatch sort_by_distance
           embedding_short "q" 0%nat 10
           state_example {| data := Some [Some [1]%R] |} [1]%R
           passages_example).
  - reflexivity.
  - reflexivity.
  - apply lookup_singleton_eq.
  - left. cbn. lia.
Defined.


Lemma get_relevant_rows_none_witness :
  exists (l : loc) (σ' : State),
    get_relevant_rows sort_by_distance embedding_up "q" 0%nat 0 state_example
      = (Ok l, σ') /\
    heap σ' !! l = Some (Scored []).
Proof.
  apply (get_relevant_rows_none sort_by_distance embedding_up "q" 0%nat 0
           state_example
           {| data := Some [Some [1; 0]%R] |} [1; 0]%R passages_example).
  - reflexivity.
  - reflexivity.
  - apply lookup_singleton_eq.
  - repeat constructor.
  - lia.
Defined.

Lemma answer_question_with_context_frame_witness :
  heap (snd (answer_question_with_context byte_encode sort_by_distance
               embedding_up completion_up "q" 0%nat 1500 150 10
               state_example)) !! 0%nat
    = Some passages_example.
Proof.
  apply (answer_question_with_context_frame byte_encode sort_by_distance
           embedding_up completion_up "q" 0%nat 1500 150 10 state_example
           0%nat passages_example).
  apply lookup_singleton_eq.
Defined.


Lemma interactive_loop_ok_exit_witness :
  exists before x rest,
    ["Exit"; "later"] = before ++ x :: rest /\ lower x = "exit" /\
    Forall (fun y => lower y <> "exit") before.
Proof.
  apply (interactive_loop_ok_exit byte_encode sort_by_distance embedding_up
           completion_up ["Exit"; "later"] 0%nat state_example
           {| heap := heap state_example;
              stdout := stdout state_example
                        ++ [Prompted "Ask a question (or type 'exit' to quit): "]
           |}).
  reflexivity.
Defined.

Lemma interactive_loop_completes_witness :
  exists σ' : State,
    interactive_loop byte_encode sort_by_distance embedding_up completion_up
      (["Hi"; "Why?"] ++ "EXIT" :: ["later"]) 0%nat state_example
      = (Ok tt, σ') /\
    heap σ' !! 0%nat = Some passages_example.
Proof.
  apply (interactive_loop_completes byte_encode sort_by_distance embedding_up
           completion_up ["Hi"; "Why?"] ["later"] "EXIT" 0%nat
           passages_example).
  - apply sort_by_distance_ascending.
  - repeat (apply List.Forall_cons; [reflexivity|]). apply List.Forall_nil.
  - reflexivity.
  - repeat (apply List.Forall_cons;
              [split;
               [vm_compute; discriminate
               | split;
                 [reflexivity
                 | right; exists [1; 0]%R;
                   split; [reflexivity | repeat constructor]]]|]).
    apply List.Forall_nil.
  - apply lookup_singleton_eq.
Defined.

Lemma interactive_loop_frame_witness :
  heap (snd (interactive_loop byte_encode sort_by_distance embedding_down
               completion_up ["Hi"; "exit"] 0%nat state_example)) !! 0%nat
    = Some passages_example.
Proof.
  apply (interactive_loop_frame byte_encode sort_by_distance embedding_down
           completion_up ["Hi"; "exit"] 0%nat 0%nat passages_example
           state_example).
  apply lookup_singleton_eq.
Defined.
